(** * kyubic_app: the control panel's state logic (src/src/App.jsx)

    A shallow embedding of the React component [App] and of the hook
    [useDeviceMonitor]: the static device registry, the status map kept by
    the monitor, the tab selection, the shutdown confirmation modal and the
    system-check widget.

    Conventions.
    - A JavaScript string is a [string] (a sequence of bytes, UTF-8).
    - A plain object whose values are booleans ([deviceStatus], the result of
      [check_batch_connections]) is the list of its own properties in
      property order: [JSON.stringify] and the spread syntax both walk the
      properties in that order, so the order is part of the model.
    - Objects have identity. A status map lives in a heap of immutable
      objects and the hook's state holds a reference to it.
    - An [async] handler is cut at its [await]: one function for the part
      that runs on the click, one for the part that runs when the backend
      call settles. *)

From Stdlib Require Import Ascii String ZArith Lia.
From stdpp Require Import base option list strings.

Local Open Scope string_scope.
Local Open Scope list_scope.

(** ** Constants *)

Module Config.

(** An entry of [MASTER_CONFIG]; [type] is the constructor. Only a
    computer carries [sshName] and [allowRos]. *)
Inductive ConfigItem : Type :=
| computer (sshName uiName ip : string) (allowRos : bool)
| device (uiName ip : string).

Definition item_ip (item : ConfigItem) : string :=
  match item with
  | computer _ _ ip _ => ip
  | device _ ip => ip
  end.

Definition item_uiName (item : ConfigItem) : string :=
  match item with
  | computer _ uiName _ _ => uiName
  | device uiName _ => uiName
  end.

Definition MASTER_CONFIG : list ConfigItem :=
  [ computer "localhost" "localhost" "127.0.0.1" true;
    computer "kyubic_main" "Main PC" "192.168.50.101" true;
    computer "kyubic_jetson" "Jetson" "192.168.9.110" false;
    computer "kyubic_rpi5" "RPi 5" "192.168.9.120" false;
    device "Sensor (ESP32)" "192.168.9.5";
    device "DVL" "192.168.9.10";
    device "GNSS" "192.168.9.20";
    device "Main KVM" "192.168.9.105";
    device "Jetson KVM" "192.168.9.115" ].

(** An element of [COMPUTERS]. *)
Record Computer : Type := mkComputer {
  name : string;
  displayName : string;
  ip : string;
  allowRos : bool
}.

(** An element of [ALL_DEVICES]. *)
Record Device : Type := mkDevice {
  dev_name : string;
  dev_ip : string
}.

(** [item => item.type === "computer"] followed by the projection, which
    reads the two fields only a computer has. *)
Definition as_computer (item : ConfigItem) : option Computer :=
  match item with
  | computer sshName uiName ip allowRos =>
      Some (mkComputer sshName uiName ip allowRos)
  | device _ _ => None
  end.

Definition COMPUTERS : list Computer := omap as_computer MASTER_CONFIG.

Definition ALL_DEVICES : list Device :=
  map (fun item => mkDevice (item_uiName item) (item_ip item)) MASTER_CONFIG.

Definition LOOPBACK : string := "127.0.0.1".

End Config.

Export Config.

#[global] Instance Computer_eq_dec : EqDecision Computer.
Proof. solve_decision. Defined.

(** ** Plain objects with boolean values *)

Module JsObject.

(** Own properties, in property order. *)
Definition JsObj : Type := list (string * bool).

(** [o[k]]: [None] is [undefined]. *)
Fixpoint get (k : string) (o : JsObj) : option bool :=
  match o with
  | [] => None
  | (k', v) :: rest => if String.eqb k' k then Some v else get k rest
  end.

(** [!!o[k]]. *)
Definition truthy (v : option bool) : bool :=
  match v with
  | Some b => b
  | None => false
  end.

(** [o[k] = v] on a key that is not an array index: an existing property
    keeps its place and takes the new value, a new one goes last. *)
Fixpoint set (k : string) (v : bool) (o : JsObj) : JsObj :=
  match o with
  | [] => [(k, v)]
  | (k', v') :: rest =>
      if String.eqb k' k then (k', v) :: rest else (k', v') :: set k v rest
  end.

(** Two objects are deeply equal when they have the same properties with
    the same values, in whatever order. *)
Definition deep_equal (o1 o2 : JsObj) : Prop :=
  forall k, get k o1 = get k o2.

End JsObject.

Abbreviation JsObj := JsObject.JsObj.

(** ** JSON.stringify on such objects *)

(** [JSON.stringify(o)] with no replacer and no indentation, as ECMA-262
    defines it (SerializeJSONObject, QuoteJSONString), for an object whose
    values are booleans: the properties in property order, each as the
    quoted key, a colon and [true] or [false], separated by commas, in
    braces. *)
Module JSON.

Definition dquote : ascii := "034"%char.
Definition backslash : ascii := "092"%char.

Definition hex_digit (n : N) : ascii :=
  if (n <? 10)%N then ascii_of_N (48 + n) else ascii_of_N (87 + n).

(** The six-character escape of a control character. *)
Definition UnicodeEscape (c : ascii) : string :=
  String backslash (String "u" (String "0" (String "0"
    (String (hex_digit (N_of_ascii c / 16))
      (String (hex_digit (N_of_ascii c mod 16)) EmptyString))))).

Definition short_escape (e : ascii) : string :=
  String backslash (String e EmptyString).

Definition QuoteJSONChar (c : ascii) : string :=
  if Ascii.eqb c dquote then short_escape dquote
  else if Ascii.eqb c backslash then short_escape backslash
  else if Ascii.eqb c "008" then short_escape "b"
  else if Ascii.eqb c "012" then short_escape "f"
  else if Ascii.eqb c "010" then short_escape "n"
  else if Ascii.eqb c "013" then short_escape "r"
  else if Ascii.eqb c "009" then short_escape "t"
  else if (N_of_ascii c <? 32)%N then UnicodeEscape c
  else String c EmptyString.

Fixpoint escape (s : string) : string :=
  match s with
  | EmptyString => EmptyString
  | String c rest => QuoteJSONChar c +:+ escape rest
  end.

Definition QuoteJSONString (s : string) : string :=
  String dquote (escape s +:+ String dquote EmptyString).

Definition SerializeJSONProperty (p : string * bool) : string :=
  QuoteJSONString (fst p) +:+ ":" +:+ (if snd p then "true" else "false").

Fixpoint join_comma (parts : list string) : string :=
  match parts with
  | [] => EmptyString
  | x :: rest =>
      match rest with
      | [] => x
      | _ :: _ => x +:+ "," +:+ join_comma rest
      end
  end.

Definition stringify (o : JsObj) : string :=
  "{" +:+ join_comma (map SerializeJSONProperty o) +:+ "}".

(** Reading a quoted string back, to show that the text determines the
    object: from the text after the opening quote, the string and what
    follows the closing quote. *)
Definition hex_value (c : ascii) : N :=
  let n := N_of_ascii c in
  if (n <? 58)%N then (n - 48)%N else (n - 87)%N.

Definition unescape (e : ascii) : ascii :=
  if Ascii.eqb e "b" then "008"%char
  else if Ascii.eqb e "f" then "012"%char
  else if Ascii.eqb e "n" then "010"%char
  else if Ascii.eqb e "r" then "013"%char
  else if Ascii.eqb e "t" then "009"%char
  else e.

Definition push (c : ascii) (r : option (string * string))
  : option (string * string) :=
  match r with
  | Some (k, t) => Some (String c k, t)
  | None => None
  end.

Fixpoint unquote (s : string) : option (string * string) :=
  match s with
  | EmptyString => None
  | String c rest =>
      if Ascii.eqb c dquote then Some (EmptyString, rest)
      else if Ascii.eqb c backslash then
        match rest with
        | EmptyString => None
        | String e rest' =>
            if Ascii.eqb e "u" then
              match rest' with
              | String _ (String _ (String h1 (String h0 rest''))) =>
                  push (ascii_of_N (16 * hex_value h1 + hex_value h0))
                       (unquote rest'')
              | _ => None
              end
            else push (unescape e) (unquote rest')
        end
      else push c (unquote rest)
  end.

(** What follows a property in the output: the closing brace, or a comma
    and the remaining properties. *)
Definition closing (rest : list (string * bool)) : string :=
  match rest with
  | [] => "}"
  | _ :: _ => "," +:+ join_comma (map SerializeJSONProperty rest) +:+ "}"
  end.

End JSON.

(** ** The backend boundary *)

(** How a promise returned by [invoke] settles; a rejection carries the
    error as the text [`${e}`] gives. *)
Inductive Settled (A : Type) : Type :=
| Resolved (a : A)
| Rejected (e : string).

Arguments Resolved {A} a.
Arguments Rejected {A} e.

(** What a handler does to the outside: the [invoke] calls with their
    arguments, [alert] and [console.error]. *)
Inductive Effect : Type :=
| Invoke_check_batch_connections (targets : list string)
| Invoke_open_ssh_terminal
    (hostname ip : string) (runRos : bool) (remoteCommand : string)
| Invoke_exec_shutdown_command (hostname : string)
| Invoke_run_system_check (hostname : string)
| Alert (msg : string)
| ConsoleError (msg e : string).

#[global] Instance Effect_eq_dec : EqDecision Effect.
Proof. solve_decision. Defined.

(** The report [run_system_check] resolves to. *)
Record CheckItem : Type := mkCheckItem {
  item_name : string;
  description : string;
  status : string;
  details : option string
}.

Record DiagnosticResult : Type := mkDiagnosticResult {
  summary : list CheckItem;
  detailed : string
}.

(** ** useDeviceMonitor *)

Module Monitor.

(** The hook's state: [deviceStatus] is a reference into the heap of
    status objects; an object is never written after its creation. *)
Record State : Type := mkState {
  heap : list JsObj;
  deviceStatus : nat
}.

Definition deref (h : list JsObj) (r : nat) : JsObj := default [] (h !! r).

(** The object [deviceStatus] refers to. *)
Definition statuses (m : State) : JsObj := deref (heap m) (deviceStatus m).

(** [useState({})]. *)
Definition init : State := mkState [ [] ] 0.

(** [devices.filter(d => d.ip !== "127.0.0.1").map(d => d.ip)] *)
Definition targets (devices : list Device) : list string :=
  map dev_ip (filter (fun d => dev_ip d <> LOOPBACK) devices).

(** [{ ...result, "127.0.0.1": true }] *)
Definition nextStatus (result : JsObj) : JsObj :=
  JsObject.set LOOPBACK true result.

(** The updater given to [setDeviceStatus], on references. *)
Definition updater (h : list JsObj) (prev next : nat) : nat :=
  if String.eqb (JSON.stringify (deref h prev)) (JSON.stringify (deref h next))
  then prev else next.

(** [updateStatuses] up to its [await]. *)
Definition updateStatuses_call (devices : list Device) : list Effect :=
  [Invoke_check_batch_connections (targets devices)].

(** [updateStatuses] from its [await] on: the body of [try] when the call
    resolved, the [catch] clause when it was rejected. *)
Definition updateStatuses_settle (r : Settled JsObj) (m : State)
  : State * list Effect :=
  match r with
  | Resolved result =>
      let next := List.length (heap m) in
      let h := (heap m ++ [nextStatus result])%list in
      (mkState h (updater h (deviceStatus m) next), [])
  | Rejected e => (m, [ConsoleError "Monitor failed:" e])
  end.

(** One tick whose query settled with [r]. *)
Definition tick (r : Settled JsObj) (m : State) : State :=
  fst (updateStatuses_settle r m).

End Monitor.

(** ** App *)

Module App.

(** The state hooks of [App], with the monitor's state in [monitor]. *)
Record State : Type := mkState {
  monitor : Monitor.State;
  activeTab : Z;
  shutdownTarget : option Computer;
  inputIp : string;
  checkResult : option DiagnosticResult;
  isChecking : bool;
  isReportOpen : bool
}.

(** [useState(0)], [useState(null)],
    [useState(isLinux ? "localhost" : "192.168.9.100")], [useState(null)],
    [useState(false)], [useState(false)]. *)
Definition init (isLinux : bool) : State :=
  mkState Monitor.init 0 None
          (if isLinux then "localhost" else "192.168.9.100")
          None false false.

(** *** The setters *)

Definition setMonitor (m : Monitor.State) (s : State) : State :=
  mkState m (activeTab s) (shutdownTarget s) (inputIp s)
          (checkResult s) (isChecking s) (isReportOpen s).

Definition setActiveTab (i : Z) (s : State) : State :=
  mkState (monitor s) i (shutdownTarget s) (inputIp s)
          (checkResult s) (isChecking s) (isReportOpen s).

Definition setShutdownTarget (t : option Computer) (s : State) : State :=
  mkState (monitor s) (activeTab s) t (inputIp s)
          (checkResult s) (isChecking s) (isReportOpen s).

Definition setInputIp (v : string) (s : State) : State :=
  mkState (monitor s) (activeTab s) (shutdownTarget s) v
          (checkResult s) (isChecking s) (isReportOpen s).

Definition setCheckResult (r : option DiagnosticResult) (s : State) : State :=
  mkState (monitor s) (activeTab s) (shutdownTarget s) (inputIp s)
          r (isChecking s) (isReportOpen s).

Definition setIsChecking (b : bool) (s : State) : State :=
  mkState (monitor s) (activeTab s) (shutdownTarget s) (inputIp s)
          (checkResult s) b (isReportOpen s).

Definition setIsReportOpen (b : bool) (s : State) : State :=
  mkState (monitor s) (activeTab s) (shutdownTarget s) (inputIp s)
          (checkResult s) (isChecking s) b.

(** *** Values derived on each render *)

(** [a[i]] for a number [i] that is an integer: [None] is [undefined]. *)
Definition index {A : Type} (a : list A) (i : Z) : option A :=
  if (i <? 0)%Z then None else a !! Z.to_nat i.

(** [!!deviceStatus[ip]] *)
Definition online (s : State) (ip : string) : bool :=
  JsObject.truthy (JsObject.get ip (Monitor.statuses (monitor s))).

(** [COMPUTERS[activeTab]] *)
Definition currentRobot (s : State) : option Computer :=
  index COMPUTERS (activeTab s).

(** [COMPUTERS.find(r => r.name === "kyubic_main")] *)
Definition mainRobot : option Computer :=
  List.find (fun r => String.eqb (name r) "kyubic_main") COMPUTERS.

(** [result?.summary.filter(i => i.status === "FAIL") || []] *)
Definition fails (result : option DiagnosticResult) : list CheckItem :=
  match result with
  | Some r => filter (fun i => status i = "FAIL") (summary r)
  | None => []
  end.

(** [result?.summary.filter(i => i.status === "PASS") || []] *)
Definition passes (result : option DiagnosticResult) : list CheckItem :=
  match result with
  | Some r => filter (fun i => status i = "PASS") (summary r)
  | None => []
  end.

(** [checkResult?.summary.filter(i => i.status === "FAIL").length || 0] *)
Definition failCount (s : State) : nat := List.length (fails (checkResult s)).

(** [checkResult?.summary.filter(i => i.status === "PASS").length || 0] *)
Definition passCount (s : State) : nat := List.length (passes (checkResult s)).

Inductive Icon : Type := shield | hourglass | no_entry.

Record BtnProps : Type := mkBtnProps {
  icon : Icon;
  text : string;
  disabled : bool
}.

(** [checkBtnProps], from [isChecking] and [isMainOnline]. *)
Definition checkBtnProps (checking mainOnline : bool) : BtnProps :=
  if checking then mkBtnProps hourglass "CHECKING..." true
  else if negb mainOnline then mkBtnProps no_entry "OFFLINE" true
  else mkBtnProps shield "RUN CHECK" false.

(** What one render of [App] shows, as far as the handlers depend on it. *)
Record View : Type := mkView {
  v_currentRobot : Computer;
  v_isOnline : bool;
  v_isMainOnline : bool;
  v_checkBtn : BtnProps;
  (** the indices of the tab buttons *)
  v_tabs : list nat;
  (** [checkResult && !isChecking]: the card with the two counts *)
  v_statusCard : option (nat * nat);
  (** [shutdownTarget && <ShutdownModal target=...>] *)
  v_shutdownModal : option Computer;
  (** [isReportOpen && checkResult && <CheckResultModal result=...>] *)
  v_reportModal : option DiagnosticResult
}.

(** [(comp.ip !== "127.0.0.1" || isLinux) && <button ...>] over
    [COMPUTERS.map((comp, idx) => ...)]. *)
Definition tabs (isLinux : bool) : list nat :=
  omap (fun p : nat * Computer =>
          if negb (String.eqb (ip (snd p)) LOOPBACK) || isLinux
          then Some (fst p) else None)
       (imap pair COMPUTERS).

(** The body of [App]; [None] when reading [.ip] of [undefined] throws. *)
Definition render (isLinux : bool) (s : State) : option View :=
  robot ← currentRobot s;
  main ← mainRobot;
  let isOnline := online s (ip robot) in
  let isMainOnline := online s (ip main) in
  Some (mkView robot isOnline isMainOnline
          (checkBtnProps (isChecking s) isMainOnline)
          (tabs isLinux)
          (match checkResult s with
           | Some _ => if isChecking s then None
                       else Some (failCount s, passCount s)
           | None => None
           end)
          (shutdownTarget s)
          (if isReportOpen s then checkResult s else None)).

(** *** The handlers *)

Definition commandStr : string := "ros2_start -- bash -i -c byobu".

Definition surfaced (e : string) : Effect := Alert ("Error: " +:+ e).

(** [handleLaunchSSH] up to its [await], and its [catch]. *)
Definition handleLaunchSSH_call (robot : Computer) (useRos : bool)
  : list Effect :=
  [Invoke_open_ssh_terminal (name robot) (ip robot) useRos
     (if useRos then commandStr else EmptyString)].

Definition handleLaunchSSH_settle (r : Settled unit) : list Effect :=
  match r with
  | Resolved _ => []
  | Rejected e => [surfaced e]
  end.

(** [executeShutdown] up to its [await]: nothing without a target. *)
Definition executeShutdown_call (s : State) : list Effect :=
  match shutdownTarget s with
  | None => []
  | Some target => [Invoke_exec_shutdown_command (name target)]
  end.

(** [executeShutdown] from its [await] on: [setShutdownTarget(null)] is
    the last statement of [try], the [catch] clause only alerts. *)
Definition executeShutdown_settle (r : Settled unit) (s : State)
  : State * list Effect :=
  match r with
  | Resolved _ => (setShutdownTarget None s, [])
  | Rejected e => (s, [surfaced e])
  end.

(** [handleSystemCheck] up to its [await]. *)
Definition handleSystemCheck_call (s : State) : State * list Effect :=
  (setCheckResult None (setIsChecking true s),
   [Invoke_run_system_check "kyubic_main"]).

(** [handleSystemCheck] from its [await] on, [finally] included. *)
Definition handleSystemCheck_settle (r : Settled DiagnosticResult) (s : State)
  : State * list Effect :=
  match r with
  | Resolved report =>
      (setIsChecking false (setCheckResult (Some report) s), [])
  | Rejected e => (setIsChecking false s, [surfaced e])
  end.

End App.

(** ** The component as a transition system *)

Module Run.

Import App.

(** What can happen to the mounted component: the timer, the clicks the
    rendered controls offer, and the settling of a backend call. *)
Inductive Event : Type :=
| Tick
| PollSettled (r : Settled JsObj)
| ClickTab (idx : nat)
| ClickShutdown
| ClickCancel
| ClickConfirm
| ShutdownSettled (r : Settled unit)
| ClickTerminal (useRos : bool)
| SessionSettled (r : Settled unit)
| ClickRunCheck
| CheckSettled (r : Settled DiagnosticResult)
| ClickStatusCard
| ClickCloseReport
| ChangeInputIp (v : string).

(** The component's state, the number of backend calls of each kind that
    have not settled yet, and everything done to the outside so far. *)
Record World : Type := mkWorld {
  app : State;
  polls : nat;
  shutdowns : nat;
  sessions : nat;
  checks : nat;
  log : list Effect
}.

(** After the first render and its effect, which calls [updateStatuses]
    once and starts the timer. *)
Definition initial (isLinux : bool) : World :=
  mkWorld (init isLinux) 1 0 0 0 (Monitor.updateStatuses_call ALL_DEVICES).

Definition update (s : State) (eff : list Effect) (w : World) : World :=
  mkWorld s (polls w) (shutdowns w) (sessions w) (checks w)
          (log w ++ eff)%list.

Definition step (isLinux : bool) (ev : Event) (w : World) : option World :=
  v ← render isLinux (app w);
  let s := app w in
  match ev with
  | Tick =>
      Some (mkWorld s (S (polls w)) (shutdowns w) (sessions w) (checks w)
              (log w ++ Monitor.updateStatuses_call ALL_DEVICES)%list)
  | PollSettled r =>
      match polls w with
      | O => None
      | S n =>
          let '(m, eff) := Monitor.updateStatuses_settle r (monitor s) in
          Some (mkWorld (setMonitor m s) n (shutdowns w) (sessions w)
                  (checks w) (log w ++ eff)%list)
      end
  | ClickTab idx =>
      if bool_decide (idx ∈ v_tabs v)
      then Some (update (setActiveTab (Z.of_nat idx) s) [] w)
      else None
  | ClickShutdown =>
      if v_isOnline v
      then Some (update (setShutdownTarget (Some (v_currentRobot v)) s) [] w)
      else None
  | ClickCancel =>
      match v_shutdownModal v with
      | Some _ => Some (update (setShutdownTarget None s) [] w)
      | None => None
      end
  | ClickConfirm =>
      match v_shutdownModal v with
      | Some _ =>
          let eff := executeShutdown_call s in
          Some (mkWorld s (polls w) (List.length eff + shutdowns w)
                  (sessions w) (checks w) (log w ++ eff)%list)
      | None => None
      end
  | ShutdownSettled r =>
      match shutdowns w with
      | O => None
      | S n =>
          let '(s', eff) := executeShutdown_settle r s in
          Some (mkWorld s' (polls w) n (sessions w) (checks w)
                  (log w ++ eff)%list)
      end
  | ClickTerminal useRos =>
      if v_isOnline v && (negb useRos || allowRos (v_currentRobot v))
      then Some (mkWorld s (polls w) (shutdowns w) (S (sessions w))
                   (checks w)
                   (log w ++ handleLaunchSSH_call (v_currentRobot v) useRos)%list)
      else None
  | SessionSettled r =>
      match sessions w with
      | O => None
      | S n =>
          Some (mkWorld s (polls w) (shutdowns w) n (checks w)
                  (log w ++ handleLaunchSSH_settle r)%list)
      end
  | ClickRunCheck =>
      if disabled (v_checkBtn v) then None
      else
        let '(s', eff) := handleSystemCheck_call s in
        Some (mkWorld s' (polls w) (shutdowns w) (sessions w)
                (S (checks w)) (log w ++ eff)%list)
  | CheckSettled r =>
      match checks w with
      | O => None
      | S n =>
          let '(s', eff) := handleSystemCheck_settle r s in
          Some (mkWorld s' (polls w) (shutdowns w) (sessions w) n
                  (log w ++ eff)%list)
      end
  | ClickStatusCard =>
      match v_statusCard v with
      | Some _ => Some (update (setIsReportOpen true s) [] w)
      | None => None
      end
  | ClickCloseReport =>
      match v_reportModal v with
      | Some _ => Some (update (setIsReportOpen false s) [] w)
      | None => None
      end
  | ChangeInputIp val => Some (update (setInputIp val s) [] w)
  end.

(** A run: the events one after the other. *)
Fixpoint run (isLinux : bool) (evs : list Event) (w : World) : option World :=
  match evs with
  | [] => Some w
  | ev :: rest => w' ← step isLinux ev w; run isLinux rest w'
  end.

Inductive reachable (isLinux : bool) : World -> Prop :=
| reachable_initial : reachable isLinux (initial isLinux)
| reachable_step w ev w' :
    reachable isLinux w -> step isLinux ev w = Some w' ->
    reachable isLinux w'.

(** What every reachable world satisfies: the active index is inside
    [COMPUTERS], and a system check is awaited exactly while [isChecking]
    is set. *)
Record invariant (w : World) : Prop := mkInvariant {
  inv_tab : (0 <= activeTab (app w) < Z.of_nat (List.length COMPUTERS))%Z;
  inv_checks : checks w = if isChecking (app w) then 1 else 0
}.

End Run.

(** ** Events by what they can touch *)

(** Events that neither arm the gate, nor cancel it, nor report a shutdown
    that went through. *)
Definition leaves_gate (ev : Run.Event) : bool :=
  match ev with
  | Run.ClickShutdown | Run.ClickCancel | Run.ShutdownSettled (Resolved _) => false
  | _ => true
  end.

(** Events that have nothing to do with the gate: the above without the
    click on Shutdown in the modal and without any settling of a shutdown. *)
Definition no_gate_event (ev : Run.Event) : bool :=
  match ev with
  | Run.ClickShutdown | Run.ClickCancel | Run.ClickConfirm
  | Run.ShutdownSettled _ => false
  | _ => true
  end.

(** Events other than the settling of a system check. *)
Definition in_flight (ev : Run.Event) : bool :=
  match ev with
  | Run.CheckSettled _ => false
  | _ => true
  end.

(** ** Sample data and sample runs *)

(** Two query results with the same two entries in opposite order. *)
Definition result_5_10 : JsObj :=
  [("192.168.9.5", true); ("192.168.9.10", false)].

Definition result_10_5 : JsObj :=
  [("192.168.9.10", false); ("192.168.9.5", true)].

Definition report_pass_fail_pass : DiagnosticResult :=
  mkDiagnosticResult
    [ mkCheckItem "cpu" "CPU load" "PASS" None;
      mkCheckItem "disk" "Disk space" "FAIL" (Some "x");
      mkCheckItem "ros" "ROS nodes" "PASS" None ]
    "raw log".

(** A query result with the four computers and the sensors up. *)
Definition fleet_up : JsObj :=
  [ ("192.168.50.101", true); ("192.168.9.110", true); ("192.168.9.120", true);
    ("192.168.9.5", true); ("192.168.9.10", false); ("192.168.9.20", true);
    ("192.168.9.105", true); ("192.168.9.115", false) ].

(** The component on Linux once the first query has resolved with
    [fleet_up]. *)
Definition world_fleet_up : Run.World :=
  Eval vm_compute in
    default (Run.initial true)
      (Run.run true [Run.PollSettled (Resolved fleet_up)] (Run.initial true)).

(** The main computer's tab selected. *)
Definition world_main_tab : Run.World :=
  Eval vm_compute in
    default world_fleet_up (Run.step true (Run.ClickTab 1) world_fleet_up).

(** While the confirmation is open: a switch to the Jetson's tab and a poll
    that reports the Jetson alone (the main computer reads offline). *)
Definition while_open : list Run.Event :=
  [ Run.ClickTab 2; Run.Tick;
    Run.PollSettled (Resolved [("192.168.9.110", true)]) ].

(** The gate armed on the main computer. *)
Definition world_armed_main : Run.World :=
  Eval vm_compute in
    default world_main_tab (Run.step true Run.ClickShutdown world_main_tab).

(** Still armed on the main computer, the Jetson's tab now active. *)
Definition world_switched : Run.World :=
  Eval vm_compute in
    default world_armed_main (Run.run true while_open world_armed_main).

(** From there, the shutdown icon clicked again. *)
Definition world_rearmed : Run.World :=
  Eval vm_compute in
    default world_switched (Run.step true Run.ClickShutdown world_switched).

(** From [world_switched], Shutdown clicked in the modal. *)
Definition world_confirmed : Run.World :=
  Eval vm_compute in
    default world_switched (Run.step true Run.ClickConfirm world_switched).

(** From [world_armed_main], Shutdown clicked in the modal; then the call
    rejected. *)
Definition world_confirm_sent : Run.World :=
  Eval vm_compute in
    default world_armed_main (Run.step true Run.ClickConfirm world_armed_main).


(** The component once a first system check has reported. *)
Definition world_reported : Run.World :=
  Eval vm_compute in
    default world_fleet_up
      (Run.run true
         [Run.ClickRunCheck; Run.CheckSettled (Resolved report_pass_fail_pass)]
         world_fleet_up).

(** A second check started, and a few events later. *)
Definition world_checking : Run.World :=
  Eval vm_compute in
    default world_reported (Run.step true Run.ClickRunCheck world_reported).

Definition world_checking_later : Run.World :=
  Eval vm_compute in
    default world_checking
      (Run.run true
         [Run.ClickTab 2; Run.Tick; Run.PollSettled (Rejected "ipc closed")]
         world_checking).

(** ** The registry for any configuration *)

Module Registry.

(** The two derived lists as functions of the configuration table. *)
Definition computers_of (config : list ConfigItem) : list Computer :=
  omap as_computer config.

Definition devices_of (config : list ConfigItem) : list Device :=
  map (fun item => mkDevice (item_uiName item) (item_ip item)) config.

End Registry.

(** ** NetworkStatusGrid *)

Module Grid.

(** A [StatusChip] with its two props. *)
Record Chip : Type := mkChip {
  chip_device : Device;
  chip_isOnline : bool
}.

(** [devices.map(d => d.ip !== "127.0.0.1" && <StatusChip device={d}
    isOnline={!!statuses[d.ip]} />)]: the chips React shows, in order. *)
Definition NetworkStatusGrid (devices : list Device) (statuses : JsObj)
  : list Chip :=
  omap (fun d =>
          if String.eqb (dev_ip d) LOOPBACK then None
          else Some (mkChip d
                       (JsObject.truthy (JsObject.get (dev_ip d) statuses))))
       devices.

End Grid.

(** ** CheckItemCard and CheckResultModal *)

Module Card.

(** [item.status === "PASS"] *)
Definition isPass (item : CheckItem) : bool := String.eqb (status item) "PASS".

(** [!!item.details]: a missing and an empty text both count as none. *)
Definition hasDetails (item : CheckItem) : bool :=
  match details item with
  | Some d => negb (String.eqb d EmptyString)
  | None => false
  end.

(** [onClick={() => hasDetails && setIsOpen(!isOpen)}] on the header. *)
Definition click_header (item : CheckItem) (isOpen : bool) : bool :=
  if hasDetails item then negb isOpen else isOpen.

(** [{isOpen && hasDetails && <div>{item.details}</div>}] *)
Definition shown_details (item : CheckItem) (isOpen : bool) : option string :=
  if isOpen && hasDetails item then details item else None.

(** The cards [CheckResultModal] shows for [result] with the toggle
    [showPassItems]: the failed items, then the passed ones when the toggle
    is on. *)
Definition visible_items (result : option DiagnosticResult)
    (showPassItems : bool) : list CheckItem :=
  App.fails result ++ (if showPassItems then App.passes result else []).

End Card.

(** ** The monitor over several ticks *)

(** The ticks of [rs], one after the other. *)
Definition ticks (rs : list (Settled JsObj)) (m : Monitor.State) : Monitor.State :=
  fold_left (fun m r => Monitor.tick r m) rs m.

(** The result of the last query of [rs] that resolved. *)
Definition last_resolved (rs : list (Settled JsObj)) : option JsObj :=
  fold_left (fun acc r =>
               match r with
               | Resolved result => Some result
               | Rejected _ => acc
               end) rs None.

(** ** The first version of the monitor (src/unnamed/part_000) *)

Module Legacy.

(** The updater run when the probe of the device at [ip] settles:
    [prev => ({ ...prev, [device.ip]: isOnline })], with [false] in place of
    [isOnline] in the [catch] clause. *)
Definition probe_settled (ip : string) (r : Settled bool) (prev : JsObj)
  : JsObj :=
  match r with
  | Resolved isOnline => JsObject.set ip isOnline prev
  | Rejected _ => JsObject.set ip false prev
  end.

(** What a settled probe writes. *)
Definition written (r : Settled bool) : bool :=
  match r with
  | Resolved isOnline => isOnline
  | Rejected _ => false
  end.

(** The body of [ALL_DEVICES.forEach] in [updateAllStatuses] for one
    [device], as the one updater it runs: for the device at ["127.0.0.1"]
    no probe is made and [prev => ({ ...prev, [device.ip]: true })] runs at
    once ([r] is not looked at); for any other device the probe is made and
    the updater of [probe_settled] runs when it settles with [r]. *)
Definition device_updater (device : Device) (r : Settled bool) (prev : JsObj)
  : JsObj :=
  if String.eqb (dev_ip device) LOOPBACK
  then JsObject.set (dev_ip device) true prev
  else probe_settled (dev_ip device) r prev.

(** What the updater of [device] writes at its address. *)
Definition device_written (device : Device) (r : Settled bool) : bool :=
  if String.eqb (dev_ip device) LOOPBACK then true else written r.

(** The updaters of [us], in the order they ran. *)
Definition settle_all (us : list (Device * Settled bool)) (prev : JsObj)
  : JsObj :=
  fold_left (fun o u => device_updater (fst u) (snd u) o) us prev.

End Legacy.

(** ** Well-formed calls *)

(** What a call to the backend looks like when it comes from the
    registry. *)
Definition names_computer (hostname : string) : Prop :=
  exists C, C ∈ COMPUTERS /\ name C = hostname.

(** The shutdown of the main computer sent and gone through: the gate is
    idle again. *)
Definition world_shutdown_done : Run.World :=
  Eval vm_compute in
    default world_confirm_sent
      (Run.step true (Run.ShutdownSettled (Resolved tt)) world_confirm_sent).

(** * Properties *)

(** ** JSON.stringify tells objects apart *)

Module JSONFacts.

Import JSON.

Lemma append_nil (b : string) : EmptyString +:+ b = b.
Proof. reflexivity. Qed.

Lemma append_cons (x : ascii) (a b : string) :
  String x a +:+ b = String x (a +:+ b).
Proof. reflexivity. Qed.

Lemma String_tail_inj (x : ascii) (a b : string) :
  String x a = String x b -> a = b.
Proof. now intros [= ->]. Qed.

Lemma append_assoc (a b c : string) : (a +:+ b) +:+ c = a +:+ (b +:+ c).
Proof.
  induction a as [|x a IH]; [reflexivity|].
  now rewrite !append_cons, IH.
Qed.

(** One escaped character is read back as that character. *)
Lemma unquote_char (c : ascii) (rest : string) :
  unquote (QuoteJSONChar c +:+ rest) = push c (unquote rest).
Proof.
  destruct c as [b0 b1 b2 b3 b4 b5 b6 b7].
  destruct b0, b1, b2, b3, b4, b5, b6, b7; reflexivity.
Qed.

(** An escaped string followed by the closing quote is read back whole. *)
Lemma unquote_escape (k t : string) :
  unquote (escape k +:+ String dquote t) = Some (k, t).
Proof.
  induction k as [|c k IH]; simpl.
  - reflexivity.
  - rewrite append_assoc, unquote_char, IH. reflexivity.
Qed.

Lemma QuoteJSONString_app (k t : string) :
  QuoteJSONString k +:+ t = String dquote (escape k +:+ String dquote t).
Proof.
  unfold QuoteJSONString.
  now rewrite append_cons, append_assoc, append_cons, append_nil.
Qed.

Lemma QuoteJSONString_app_inj (k1 k2 t1 t2 : string) :
  QuoteJSONString k1 +:+ t1 = QuoteJSONString k2 +:+ t2 ->
  k1 = k2 /\ t1 = t2.
Proof.
  rewrite !QuoteJSONString_app. intros H. injection H as H.
  apply (f_equal unquote) in H. rewrite !unquote_escape in H.
  now inversion H.
Qed.

Lemma SerializeJSONProperty_app_inj (p1 p2 : string * bool) (t1 t2 : string) :
  SerializeJSONProperty p1 +:+ t1 = SerializeJSONProperty p2 +:+ t2 ->
  p1 = p2 /\ t1 = t2.
Proof.
  destruct p1 as [k1 v1], p2 as [k2 v2]. unfold SerializeJSONProperty.
  simpl fst; simpl snd. rewrite !append_assoc. intros H.
  apply QuoteJSONString_app_inj in H as [-> H].
  destruct v1, v2; rewrite ?append_cons, ?append_nil in H;
    try discriminate H; injection H as ->; split; reflexivity.
Qed.

Lemma join_comma_cons (p : string * bool) (rest : list (string * bool)) :
  join_comma (map SerializeJSONProperty (p :: rest)) +:+ "}"
  = SerializeJSONProperty p +:+ closing rest.
Proof.
  destruct rest as [|q rest]; [reflexivity|].
  cbn [map join_comma closing]. now rewrite !append_assoc.
Qed.

Lemma SerializeJSONProperty_quote (p : string * bool) :
  exists t, SerializeJSONProperty p = String dquote t.
Proof. unfold SerializeJSONProperty, QuoteJSONString. simpl. eauto. Qed.

Lemma closing_inj (o1 o2 : list (string * bool)) :
  closing o1 = closing o2 -> o1 = o2.
Proof.
  revert o2. induction o1 as [|p1 o1 IH]; intros [|p2 o2] H.
  - reflexivity.
  - discriminate H.
  - discriminate H.
  - cbn [closing] in H.
    rewrite !join_comma_cons in H.
    rewrite !(append_cons "," EmptyString), !append_nil in H.
    apply String_tail_inj in H.
    apply SerializeJSONProperty_app_inj in H as [-> H].
    f_equal. now apply IH.
Qed.

(** Equal texts come from equal objects: same properties, same values,
    same order. *)
Lemma stringify_inj (o1 o2 : JsObj) :
  JSON.stringify o1 = JSON.stringify o2 -> o1 = o2.
Proof.
  unfold stringify. rewrite !(append_cons "{" EmptyString), !append_nil.
  intros H. apply String_tail_inj in H.
  destruct o1 as [|p1 o1], o2 as [|p2 o2].
  - reflexivity.
  - rewrite join_comma_cons in H.
    destruct (SerializeJSONProperty_quote p2) as [t Ht].
    rewrite Ht in H. discriminate H.
  - rewrite join_comma_cons in H.
    destruct (SerializeJSONProperty_quote p1) as [t Ht].
    rewrite Ht in H. discriminate H.
  - rewrite !join_comma_cons in H.
    apply SerializeJSONProperty_app_inj in H as [-> H].
    f_equal. now apply closing_inj.
Qed.

Lemma stringify_eqb (o1 o2 : JsObj) :
  String.eqb (JSON.stringify o1) (JSON.stringify o2) = true <-> o1 = o2.
Proof.
  rewrite String.eqb_eq. split; [apply stringify_inj | now intros ->].
Qed.

End JSONFacts.

(** ** The status monitor *)

Module MonitorFacts.

Import Monitor.

Lemma get_set_same (k : string) (v : bool) (o : JsObj) :
  JsObject.get k (JsObject.set k v o) = Some v.
Proof.
  induction o as [|[k' v'] o IH]; simpl.
  - now rewrite String.eqb_refl.
  - destruct (String.eqb k' k) eqn:E; simpl; rewrite E; [reflexivity | exact IH].
Qed.

Lemma get_set_other (k k' : string) (v : bool) (o : JsObj) :
  k <> k' -> JsObject.get k' (JsObject.set k v o) = JsObject.get k' o.
Proof.
  intros Hne. induction o as [|[k0 v0] o IH]; simpl.
  - destruct (String.eqb_spec k k'); [contradiction | reflexivity].
  - destruct (String.eqb_spec k0 k) as [->|Hk]; simpl.
    + destruct (String.eqb_spec k k'); [contradiction | reflexivity].
    + now rewrite IH.
Qed.

Lemma set_not_nil (k : string) (v : bool) (o : JsObj) :
  JsObject.set k v o <> [].
Proof. destruct o as [|[k' v'] o]; simpl; [|destruct (String.eqb k' k)]; discriminate. Qed.

Lemma deref_new (h : list JsObj) (o : JsObj) :
  deref (h ++ [o]) (List.length h) = o.
Proof. unfold deref. now rewrite list_lookup_middle. Qed.

Lemma deref_old (h : list JsObj) (o : JsObj) (r : nat) :
  r < List.length h -> deref (h ++ [o]) r = deref h r.
Proof. intros Hr. unfold deref. now rewrite lookup_app_l. Qed.

(** A reference that reads as a non-empty object points into the heap. *)
Lemma deref_allocated (h : list JsObj) (r : nat) :
  deref h r <> [] -> r < List.length h.
Proof.
  unfold deref. intros H. apply lookup_lt_is_Some.
  destruct (h !! r); [eauto | now elim H].
Qed.

(** The updater keeps [prev] exactly when both references read the same
    properties in the same order. *)
Lemma updater_same (h : list JsObj) (prev next : nat) :
  deref h prev = deref h next -> updater h prev next = prev.
Proof.
  intros H. unfold updater.
  now rewrite (proj2 (JSONFacts.stringify_eqb _ _) H).
Qed.

Lemma updater_differ (h : list JsObj) (prev next : nat) :
  deref h prev <> deref h next -> updater h prev next = next.
Proof.
  intros H. unfold updater.
  destruct (String.eqb _ _) eqn:E; [|reflexivity].
  apply JSONFacts.stringify_eqb in E. contradiction.
Qed.

Lemma updater_deref (h : list JsObj) (prev next : nat) :
  deref h (updater h prev next) = deref h next.
Proof.
  destruct (decide (deref h prev = deref h next)) as [E|E].
  - now rewrite updater_same.
  - now rewrite updater_differ.
Qed.

(** After a query that resolved, the state reads as the map just built,
    whichever reference was kept. *)
Lemma tick_resolved_statuses (result : JsObj) (m : State) :
  statuses (tick (Resolved result) m) = nextStatus result.
Proof.
  unfold tick, statuses. simpl. rewrite updater_deref. apply deref_new.
Qed.

Lemma tick_resolved_heap (result : JsObj) (m : State) :
  heap (tick (Resolved result) m) = heap m ++ [nextStatus result].
Proof. reflexivity. Qed.

(** A resolved query whose map reads the same as the stored one leaves
    the reference alone. *)
Lemma tick_resolved_keeps (result : JsObj) (m : State) :
  statuses m = nextStatus result ->
  deviceStatus (tick (Resolved result) m) = deviceStatus m.
Proof.
  intros H. unfold tick. simpl. apply updater_same.
  rewrite deref_new, deref_old; [exact H|].
  apply deref_allocated. fold (statuses m). rewrite H. apply set_not_nil.
Qed.

(** A resolved query whose map reads differently stores the reference of
    the new object. *)
Lemma tick_resolved_replaces (result : JsObj) (m : State) :
  deviceStatus m < List.length (heap m) ->
  statuses m <> nextStatus result ->
  deviceStatus (tick (Resolved result) m) = List.length (heap m).
Proof.
  intros Hr H. unfold tick. simpl. apply updater_differ.
  now rewrite deref_new, deref_old.
Qed.

Lemma targets_spec (devices : list Device) (a : string) :
  a ∈ targets devices <-> a <> LOOPBACK /\ exists d, d ∈ devices /\ dev_ip d = a.
Proof.
  unfold targets. rewrite list_elem_of_In, in_map_iff. split.
  - intros (d & <- & Hd). apply list_elem_of_In, list_elem_of_filter in Hd.
    destruct Hd as [Hne Hd]. eauto.
  - intros (Hne & d & Hd & <-). exists d. split; [reflexivity|].
    apply list_elem_of_In, list_elem_of_filter. split; assumption.
Qed.

End MonitorFacts.

(** ** Status monitor: what a tick does to the stored map *)

(** C2. When the batched query is rejected, the tick stores nothing: the
    reference held in [deviceStatus] and the heap of status objects are the
    ones from before the tick, so every device reads as it did, and the only
    thing done is the [console.error] with the failure. *)
Theorem failed_query_keeps_status_map (e : string) (m : Monitor.State) :
  Monitor.deviceStatus (Monitor.tick (Rejected e) m) = Monitor.deviceStatus m
  /\ Monitor.heap (Monitor.tick (Rejected e) m) = Monitor.heap m
  /\ (forall ip, JsObject.get ip (Monitor.statuses (Monitor.tick (Rejected e) m))
                 = JsObject.get ip (Monitor.statuses m))
  /\ snd (Monitor.updateStatuses_settle (Rejected e) m)
     = [ConsoleError "Monitor failed:" e].
Proof. repeat split. Qed.

(** The same at the level of the component: the settling of a rejected query
    leaves the whole state of [App] as it was. *)
Lemma step_poll_rejected (isLinux : bool) (e : string) (w w' : Run.World) :
  Run.step isLinux (Run.PollSettled (Rejected e)) w = Some w' ->
  Run.app w' = Run.app w
  /\ Run.log w' = Run.log w ++ [ConsoleError "Monitor failed:" e].
Proof.
  unfold Run.step. destruct (App.render isLinux (Run.app w)); [|discriminate].
  simpl. destruct (Run.polls w); [discriminate|].
  intros [= <-]. simpl. split; [|reflexivity].
  now destruct (Run.app w).
Qed.

(** C3, as stated, fails: the maps built from [result_5_10] and from
    [result_10_5] have the same entries, yet the second poll stores a new
    reference, because the two texts [JSON.stringify] gives differ in the
    order of the properties. *)
Lemma reordered_result_replaces_reference :
  JsObject.deep_equal (Monitor.nextStatus result_5_10)
                      (Monitor.nextStatus result_10_5)
  /\ Monitor.deviceStatus
       (Monitor.tick (Resolved result_10_5)
          (Monitor.tick (Resolved result_5_10) Monitor.init))
     <> Monitor.deviceStatus (Monitor.tick (Resolved result_5_10) Monitor.init).
Proof.
  split.
  - assert (Monitor.nextStatus result_5_10
            = [("192.168.9.5", true); ("192.168.9.10", false); (LOOPBACK, true)])
      as -> by reflexivity.
    assert (Monitor.nextStatus result_10_5
            = [("192.168.9.10", false); ("192.168.9.5", true); (LOOPBACK, true)])
      as -> by reflexivity.
    intros k. cbn [JsObject.get].
    destruct (String.eqb_spec "192.168.9.5" k) as [E5|H5];
      destruct (String.eqb_spec "192.168.9.10" k) as [E10|H10];
      try reflexivity.
    rewrite <- E5 in E10. discriminate E10.
  - vm_compute. discriminate.
Qed.

(** C3 (amended). Two consecutive polls that resolve and build maps with
    the same [JSON.stringify] text leave the stored reference alone: the
    second poll finds the text of the stored map equal to the text of the
    new one and returns [prev]. Equal texts mean the same entries with the
    same values in the same property order. *)
Theorem unchanged_poll_keeps_reference (m : Monitor.State) (r1 r2 : JsObj) :
  JSON.stringify (Monitor.nextStatus r1) = JSON.stringify (Monitor.nextStatus r2) ->
  Monitor.deviceStatus
    (Monitor.tick (Resolved r2) (Monitor.tick (Resolved r1) m))
  = Monitor.deviceStatus (Monitor.tick (Resolved r1) m)
  /\ Monitor.nextStatus r1 = Monitor.nextStatus r2.
Proof.
  intros H. apply JSONFacts.stringify_inj in H. split; [|exact H].
  apply MonitorFacts.tick_resolved_keeps.
  now rewrite MonitorFacts.tick_resolved_statuses.
Qed.

Lemma unchanged_poll_keeps_reference_witness :
  Monitor.deviceStatus
    (Monitor.tick (Resolved result_5_10)
       (Monitor.tick (Resolved result_5_10) Monitor.init))
  = Monitor.deviceStatus (Monitor.tick (Resolved result_5_10) Monitor.init).
Proof.
  apply (unchanged_poll_keeps_reference Monitor.init result_5_10 result_5_10).
  reflexivity.
Defined.

(** C4. Whatever the query resolves to, and whatever was stored before, the
    stored map reads [true] at ["127.0.0.1"] after the poll; and the list of
    targets handed to the query never contains ["127.0.0.1"]. *)
Theorem loopback_forced_online
    (devices : list Device) (result : JsObj) (m : Monitor.State) :
  JsObject.get LOOPBACK (Monitor.statuses (Monitor.tick (Resolved result) m))
  = Some true
  /\ (LOOPBACK ∉ Monitor.targets devices)
  /\ Monitor.updateStatuses_call devices
     = [Invoke_check_batch_connections (Monitor.targets devices)].
Proof.
  split; [|split].
  - rewrite MonitorFacts.tick_resolved_statuses. apply MonitorFacts.get_set_same.
  - intros H. apply MonitorFacts.targets_spec in H. now destruct H.
  - reflexivity.
Qed.

(** ** The diagnostic report: pass and fail groups *)

Module ReportFacts.

Import App.

Lemma filter_two_length {A : Type} (P Q : A -> Prop)
    `{forall x, Decision (P x)} `{forall x, Decision (Q x)} (l : list A) :
  Forall (fun x => (P x \/ Q x) /\ ~ (P x /\ Q x)) l ->
  List.length (filter P l) + List.length (filter Q l) = List.length l.
Proof.
  induction 1 as [|x l [Hor Hnand] _ IH]; [reflexivity|].
  rewrite !filter_cons.
  destruct (decide (P x)), (decide (Q x)); simpl; try lia; tauto.
Qed.

Lemma pass_or_fail_exclusive (i : CheckItem) :
  ~ (status i = "PASS" /\ status i = "FAIL").
Proof. intros [HP HF]. rewrite HP in HF. discriminate HF. Qed.

End ReportFacts.

(** C6. When every item of the summary is a PASS or a FAIL, the two groups
    together have as many items as the summary, and each group lists its
    items in the order the summary has them (it is a subsequence of the
    summary). *)
Theorem partition_counts_and_order (result : DiagnosticResult) :
  Forall (fun i => status i = "PASS" \/ status i = "FAIL") (summary result) ->
  List.length (App.passes (Some result)) + List.length (App.fails (Some result))
  = List.length (summary result)
  /\ App.passes (Some result) `sublist_of` summary result
  /\ App.fails (Some result) `sublist_of` summary result
  /\ App.passes (Some result) = filter (fun i => status i = "PASS") (summary result)
  /\ App.fails (Some result) = filter (fun i => status i = "FAIL") (summary result).
Proof.
  intros Hall. unfold App.passes, App.fails. repeat split.
  - apply ReportFacts.filter_two_length.
    eapply Forall_impl; [exact Hall|]. intros i Hi.
    split; [exact Hi | apply ReportFacts.pass_or_fail_exclusive].
  - apply sublist_filter.
  - apply sublist_filter.
Qed.

Lemma partition_counts_and_order_witness :
  List.length (App.passes (Some report_pass_fail_pass))
  + List.length (App.fails (Some report_pass_fail_pass))
  = 3.
Proof.
  refine (proj1 (partition_counts_and_order report_pass_fail_pass _)).
  unfold report_pass_fail_pass, summary.
  repeat (constructor; [first [left; reflexivity | right; reflexivity]|]).
  constructor.
Defined.

(** ** The running component *)

Module RunFacts.

Import App Run.

(** Opens a hypothesis [step isLinux ev w = Some w'] along the tests the
    handler of [ev] makes. *)
Ltac open_step H :=
  unfold step in H;
  destruct (render _ _) as [?v|] eqn:?Hrender; [|discriminate H];
  cbn [mbind option_bind] in H;
  unfold Monitor.updateStatuses_settle, executeShutdown_settle,
    handleSystemCheck_call, handleSystemCheck_settle in H;
  try match type of H with
      | context [match ?r with Resolved _ => _ | Rejected _ => _ end] =>
          destruct r
      end;
  repeat (cbn beta iota zeta in H;
          match type of H with
          | context [match ?x with _ => _ end] => destruct x eqn:?
          end);
  try discriminate H;
  injection H as H; try subst.

Lemma tabs_bound (isLinux : bool) :
  Forall (fun idx => idx < List.length COMPUTERS) (tabs isLinux).
Proof. destruct isLinux; vm_compute; repeat constructor. Qed.

Lemma tabs_in_range (isLinux : bool) (idx : nat) :
  idx ∈ tabs isLinux -> idx < List.length COMPUTERS.
Proof. intros H. exact (proj1 (Forall_forall _ _) (tabs_bound isLinux) idx H). Qed.

Lemma mainRobot_eq :
  mainRobot = Some (mkComputer "kyubic_main" "Main PC" "192.168.50.101" true).
Proof. reflexivity. Qed.

Lemma index_Some {A : Type} (a : list A) (i : Z) (x : A) :
  index a i = Some x -> (0 <= i < Z.of_nat (List.length a))%Z.
Proof.
  unfold index. destruct (Z.ltb_spec i 0); [discriminate|].
  intros Hx. apply lookup_lt_Some in Hx. lia.
Qed.

Lemma index_of_nat {A : Type} (a : list A) (n : nat) :
  index a (Z.of_nat n) = a !! n.
Proof.
  unfold index. destruct (Z.ltb_spec (Z.of_nat n) 0); [lia|].
  now rewrite Nat2Z.id.
Qed.

(** A state that renders has its active index inside [COMPUTERS]. *)
Lemma render_in_range (isLinux : bool) (s : State) (v : View) :
  render isLinux s = Some v ->
  (0 <= activeTab s < Z.of_nat (List.length COMPUTERS))%Z
  /\ currentRobot s = Some (v_currentRobot v).
Proof.
  unfold render. destruct (currentRobot s) as [robot|] eqn:E; [|discriminate].
  rewrite mainRobot_eq. cbn [mbind option_bind]. intros [= <-].
  split; [|reflexivity]. eapply index_Some. exact E.
Qed.

Lemma render_fields (isLinux : bool) (s : State) (v : View) :
  render isLinux s = Some v ->
  v_isOnline v = online s (ip (v_currentRobot v))
  /\ v_isMainOnline v = online s "192.168.50.101"
  /\ v_checkBtn v = checkBtnProps (isChecking s) (online s "192.168.50.101")
  /\ v_tabs v = tabs isLinux
  /\ v_shutdownModal v = shutdownTarget s
  /\ v_reportModal v = (if isReportOpen s then checkResult s else None).
Proof.
  unfold render. destruct (currentRobot s) as [robot|]; [|discriminate].
  rewrite mainRobot_eq. cbn [mbind option_bind]. intros [= <-].
  repeat split.
Qed.

Lemma invariant_initial (isLinux : bool) : invariant (initial isLinux).
Proof. split; [vm_compute; split; congruence | reflexivity]. Qed.

Lemma checkBtnProps_disabled (checking mainOnline : bool) :
  disabled (checkBtnProps checking mainOnline) = checking || negb mainOnline.
Proof. now destruct checking, mainOnline. Qed.

(** The check button is enabled only when no check runs and the main
    computer is online. *)
Lemma enabled_check (isLinux : bool) (s : State) (v : View) :
  render isLinux s = Some v ->
  disabled (v_checkBtn v) = false ->
  isChecking s = false /\ online s "192.168.50.101" = true.
Proof.
  intros Hr Hd. apply render_fields in Hr as (_ & _ & Hbtn & _).
  rewrite Hbtn, checkBtnProps_disabled in Hd.
  destruct (isChecking s), (online s "192.168.50.101"); try discriminate Hd.
  split; reflexivity.
Qed.

Lemma clicked_tab_in_range (isLinux : bool) (s : State) (v : View) (idx : nat) :
  render isLinux s = Some v ->
  bool_decide (idx ∈ v_tabs v) = true ->
  idx < List.length COMPUTERS.
Proof.
  intros Hr Hin. apply render_fields in Hr as (_ & _ & _ & Htabs & _).
  apply bool_decide_eq_true in Hin. rewrite Htabs in Hin.
  eapply tabs_in_range. exact Hin.
Qed.

Lemma invariant_step (isLinux : bool) (ev : Event) (w w' : World) :
  invariant w -> step isLinux ev w = Some w' -> invariant w'.
Proof.
  intros [Htab Hchecks] H.
  destruct ev; open_step H; split; cbn in *; try assumption; try lia.
  - pose proof (clicked_tab_in_range _ _ _ _ Hrender Heqb) as Hlt.
    cbn in Hlt. lia.
  - destruct (enabled_check _ _ _ Hrender Heqb) as [Hc _].
    rewrite Hc in Hchecks. lia.
  - destruct (isChecking (app w)); lia.
  - destruct (isChecking (app w)); lia.
Qed.

Lemma reachable_invariant (isLinux : bool) (w : World) :
  reachable isLinux w -> invariant w.
Proof.
  induction 1 as [|w ev w' _ IH Hstep].
  - apply invariant_initial.
  - eapply invariant_step; eassumption.
Qed.

(** A reachable world renders: [COMPUTERS[activeTab]] is defined. *)
Lemma invariant_renders (isLinux : bool) (w : World) :
  invariant w -> is_Some (render isLinux (app w)).
Proof.
  intros [Htab _]. unfold render, currentRobot, index.
  destruct (Z.ltb_spec (activeTab (app w)) 0) as [?|_]; [lia|].
  destruct (lookup_lt_is_Some_2 COMPUTERS (Z.to_nat (activeTab (app w))))
    as [robot ->]; [lia|].
  rewrite mainRobot_eq. cbn [mbind option_bind]. eauto.
Qed.

(** *** Runs *)

Lemma run_app (isLinux : bool) (evs1 evs2 : list Event) (w : World) :
  run isLinux (evs1 ++ evs2) w
  = w' ← run isLinux evs1 w; run isLinux evs2 w'.
Proof.
  revert w. induction evs1 as [|ev evs1 IH]; intros w; [reflexivity|].
  rewrite <- app_comm_cons. cbn [run].
  destruct (step isLinux ev w); cbn [mbind option_bind];
    [apply IH | reflexivity].
Qed.

Lemma reachable_run (isLinux : bool) (evs : list Event) (w w' : World) :
  reachable isLinux w -> run isLinux evs w = Some w' -> reachable isLinux w'.
Proof.
  revert w. induction evs as [|ev evs IH]; intros w Hw; cbn [run].
  - now intros [= <-].
  - destruct (step isLinux ev w) as [w1|] eqn:E; [|discriminate].
    cbn [mbind option_bind]. apply IH. eapply reachable_step; eassumption.
Qed.

(** *** What each click and each settling does *)

Lemma step_ClickTab (isLinux : bool) (idx : nat) (w w' : World) :
  step isLinux (ClickTab idx) w = Some w' ->
  idx ∈ tabs isLinux
  /\ w' = update (setActiveTab (Z.of_nat idx) (app w)) [] w.
Proof.
  intros H. open_step H. split; [|reflexivity].
  apply render_fields in Hrender as (_ & _ & _ & <- & _).
  now apply bool_decide_eq_true in Heqb.
Qed.

Lemma step_ClickShutdown (isLinux : bool) (w w' : World) :
  step isLinux ClickShutdown w = Some w' ->
  exists C, currentRobot (app w) = Some C
            /\ online (app w) (ip C) = true
            /\ w' = update (setShutdownTarget (Some C) (app w)) [] w.
Proof.
  intros H. open_step H. exists (v_currentRobot v).
  destruct (render_in_range _ _ _ Hrender) as [_ Hcur].
  apply render_fields in Hrender as (Hon & _).
  rewrite <- Hon. auto.
Qed.

Lemma step_ClickConfirm (isLinux : bool) (w w' : World) :
  step isLinux ClickConfirm w = Some w' ->
  exists C, shutdownTarget (app w) = Some C
            /\ app w' = app w
            /\ log w' = log w ++ [Invoke_exec_shutdown_command (name C)]
            /\ shutdowns w' = S (shutdowns w).
Proof.
  intros H. open_step H.
  apply render_fields in Hrender as (_ & _ & _ & _ & Hmodal & _).
  match goal with E : v_shutdownModal v = Some ?c |- _ =>
    rewrite Hmodal in E; exists c end.
  unfold executeShutdown_call.
  match goal with E : shutdownTarget _ = Some _ |- _ => rewrite E end.
  auto.
Qed.


Lemma step_ClickRunCheck (isLinux : bool) (w w' : World) :
  step isLinux ClickRunCheck w = Some w' ->
  isChecking (app w) = false
  /\ online (app w) "192.168.50.101" = true
  /\ app w' = setCheckResult None (setIsChecking true (app w))
  /\ log w' = log w ++ [Invoke_run_system_check "kyubic_main"]
  /\ checks w' = S (checks w).
Proof.
  intros H. open_step H.
  match goal with E : disabled _ = false |- _ =>
    destruct (enabled_check _ _ _ Hrender E) as [Hc Hon] end.
  auto.
Qed.

Lemma step_CheckSettled (isLinux : bool) (r : Settled DiagnosticResult)
    (w w' : World) :
  step isLinux (CheckSettled r) w = Some w' ->
  checks w = S (checks w')
  /\ match r with
     | Resolved report =>
         app w' = setIsChecking false (setCheckResult (Some report) (app w))
         /\ log w' = log w
     | Rejected e =>
         app w' = setIsChecking false (app w)
         /\ log w' = log w ++ [surfaced e]
     end.
Proof.
  intros H. open_step H; cbn; repeat split; auto using app_nil_r.
Qed.

End RunFacts.

(** ** The shutdown confirmation *)

Module GateFacts.

Import App Run RunFacts.

Lemma step_leaves_gate (isLinux : bool) (ev : Event) (w w' : World) :
  leaves_gate ev = true -> step isLinux ev w = Some w' ->
  shutdownTarget (app w') = shutdownTarget (app w).
Proof.
  intros Hev H. destruct ev; try discriminate Hev; open_step H;
    try discriminate Hev; reflexivity.
Qed.

Lemma run_leaves_gate (isLinux : bool) (evs : list Event) (w w' : World) :
  forallb leaves_gate evs = true -> run isLinux evs w = Some w' ->
  shutdownTarget (app w') = shutdownTarget (app w).
Proof.
  revert w. induction evs as [|ev evs IH]; intros w Hall; cbn [run].
  - now intros [= <-].
  - cbn [forallb] in Hall. apply andb_prop in Hall as [Hev Hall].
    destruct (step isLinux ev w) as [w1|] eqn:E; [|discriminate].
    cbn [mbind option_bind]. intros Hrun.
    rewrite (IH _ Hall Hrun). eapply step_leaves_gate; eassumption.
Qed.

Lemma no_gate_event_leaves_gate (evs : list Event) :
  forallb no_gate_event evs = true -> forallb leaves_gate evs = true.
Proof.
  induction evs as [|ev evs IH]; [reflexivity|]. cbn [forallb].
  intros H. apply andb_prop in H as [Hev Hall]. rewrite (IH Hall).
  destruct ev; try discriminate Hev; reflexivity.
Qed.

Lemma modal_shows_target (isLinux : bool) (s : State) (robot : Computer) :
  currentRobot s = Some robot ->
  (v ← render isLinux s; v_shutdownModal v) = shutdownTarget s.
Proof. unfold render. intros ->. reflexivity. Qed.

End GateFacts.

Lemma world_fleet_up_reachable : Run.reachable true world_fleet_up.
Proof.
  eapply (RunFacts.reachable_run true [Run.PollSettled (Resolved fleet_up)]).
  - apply Run.reachable_initial.
  - vm_compute. reflexivity.
Qed.

(** C7. The gate is armed with computer [A]; then, with no cancel, no
    confirm and no settling of a shutdown in between (tabs may be switched,
    polls may come in), the shutdown icon is clicked again while computer
    [B] is the current one. Just before that click the gate still holds
    [A]; after it [shutdownTarget], the one place a pending target is
    kept, holds [B] and the modal shows [B]; the click itself sends nothing
    to the backend, and a confirm that follows sends one shutdown call, for
    [B]. *)
Theorem rearming_replaces_target
    (isLinux : bool) (evs : list Run.Event) (w wA w' wB : Run.World) :
  Run.step isLinux Run.ClickShutdown w = Some wA ->
  forallb no_gate_event evs = true ->
  Run.run isLinux evs wA = Some w' ->
  Run.step isLinux Run.ClickShutdown w' = Some wB ->
  exists A B,
    App.currentRobot (Run.app w) = Some A
    /\ App.shutdownTarget (Run.app wA) = Some A
    /\ App.shutdownTarget (Run.app w') = Some A
    /\ App.currentRobot (Run.app w') = Some B
    /\ App.shutdownTarget (Run.app wB) = Some B
    /\ (v ← App.render isLinux (Run.app wB); App.v_shutdownModal v) = Some B
    /\ Run.log wB = Run.log w'
    /\ (forall w3,
          Run.step isLinux Run.ClickConfirm wB = Some w3 ->
          Run.log w3 = Run.log wB ++ [Invoke_exec_shutdown_command (name B)]).
Proof.
  intros HA Hevs Hrun HB.
  apply RunFacts.step_ClickShutdown in HA as (A & HcurA & _ & ->).
  apply GateFacts.no_gate_event_leaves_gate in Hevs.
  apply (GateFacts.run_leaves_gate _ _ _ _ Hevs) in Hrun.
  apply RunFacts.step_ClickShutdown in HB as (B & HcurB & _ & ->).
  exists A, B. cbn in Hrun. cbn.
  split; [exact HcurA|]. split; [reflexivity|]. split; [exact Hrun|].
  split; [exact HcurB|]. split; [reflexivity|]. split; [|split].
  - now rewrite (GateFacts.modal_shows_target isLinux _ B).
  - apply app_nil_r.
  - intros w3 Hconfirm.
    apply RunFacts.step_ClickConfirm in Hconfirm as (C & HC & _ & Hlog & _).
    cbn in HC. injection HC as <-. exact Hlog.
Qed.

Lemma rearming_replaces_target_witness :
  App.shutdownTarget (Run.app world_switched)
  = Some (mkComputer "kyubic_main" "Main PC" "192.168.50.101" true)
  /\ App.shutdownTarget (Run.app world_rearmed)
     = Some (mkComputer "kyubic_jetson" "Jetson" "192.168.9.110" false).
Proof.
  destruct (rearming_replaces_target true while_open
              world_main_tab world_armed_main world_switched world_rearmed)
    as (A & B & _ & _ & HA & HcurB & HB & _).
  - vm_compute. reflexivity.
  - reflexivity.
  - vm_compute. reflexivity.
  - vm_compute. reflexivity.
  - split; [reflexivity|].
    vm_compute in HcurB. injection HcurB as <-. exact HB.
Defined.

(** C8. The gate is armed by a click on the shutdown icon while computer
    [C] is the current one. Whatever happens while the confirmation is open
    short of arming again, cancelling or a shutdown going through (a switch
    to another tab, a poll that reports [C] offline), the click on Shutdown
    in the modal calls [exec_shutdown_command] once, with the hostname of
    [C]. *)
Theorem confirm_dispatches_armed_target
    (isLinux : bool) (evs : list Run.Event) (w0 w1 w2 w3 : Run.World) :
  Run.step isLinux Run.ClickShutdown w0 = Some w1 ->
  forallb leaves_gate evs = true ->
  Run.run isLinux evs w1 = Some w2 ->
  Run.step isLinux Run.ClickConfirm w2 = Some w3 ->
  exists C,
    App.currentRobot (Run.app w0) = Some C
    /\ App.shutdownTarget (Run.app w1) = Some C
    /\ Run.log w3 = Run.log w2 ++ [Invoke_exec_shutdown_command (name C)]
    /\ Run.shutdowns w3 = S (Run.shutdowns w2).
Proof.
  intros Harm Hevs Hrun Hconfirm.
  apply RunFacts.step_ClickShutdown in Harm as (C & Hcur & _ & ->).
  apply (GateFacts.run_leaves_gate _ _ _ _ Hevs) in Hrun.
  apply RunFacts.step_ClickConfirm in Hconfirm as (C' & Ht & _ & Hlog & Hn).
  rewrite Hrun in Ht. cbn in Ht. injection Ht as <-.
  exists C. auto.
Qed.

Lemma confirm_dispatches_armed_target_witness :
  App.currentRobot (Run.app world_switched)
  = Some (mkComputer "kyubic_jetson" "Jetson" "192.168.9.110" false)
  /\ Run.log world_confirmed
     = Run.log world_switched ++ [Invoke_exec_shutdown_command "kyubic_main"].
Proof.
  split; [reflexivity|].
  destruct (confirm_dispatches_armed_target true while_open
              world_main_tab world_armed_main world_switched world_confirmed)
    as (C & HC & _ & Hlog & _).
  - vm_compute. reflexivity.
  - reflexivity.
  - vm_compute. reflexivity.
  - vm_compute. reflexivity.
  - vm_compute in HC. injection HC as <-. exact Hlog.
Defined.




(** ** The system check *)

Module CheckFacts.

Import App Run RunFacts.

Lemma render_eq (isLinux : bool) (s : State) (robot : Computer) :
  currentRobot s = Some robot ->
  render isLinux s
  = Some (mkView robot (online s (ip robot)) (online s "192.168.50.101")
            (checkBtnProps (isChecking s) (online s "192.168.50.101"))
            (tabs isLinux)
            (match checkResult s with
             | Some _ => if isChecking s then None
                         else Some (failCount s, passCount s)
             | None => None
             end)
            (shutdownTarget s)
            (if isReportOpen s then checkResult s else None)).
Proof. unfold render. intros ->. reflexivity. Qed.

(** While a check runs, nothing but its settling touches the flag, the
    stored result or the number of checks awaited. *)
Lemma step_in_flight (isLinux : bool) (ev : Event) (w w' : World) :
  in_flight ev = true -> isChecking (app w) = true ->
  step isLinux ev w = Some w' ->
  isChecking (app w') = true
  /\ checkResult (app w') = checkResult (app w)
  /\ checks w' = checks w.
Proof.
  intros Hev Hc H. destruct ev; try discriminate Hev; open_step H; auto.
  match goal with E : disabled _ = false |- _ =>
    destruct (enabled_check _ _ _ Hrender E) as [Hc' _] end.
  congruence.
Qed.

Lemma run_in_flight (isLinux : bool) (evs : list Event) (w w' : World) :
  forallb in_flight evs = true -> isChecking (app w) = true ->
  run isLinux evs w = Some w' ->
  isChecking (app w') = true
  /\ checkResult (app w') = checkResult (app w)
  /\ checks w' = checks w.
Proof.
  revert w. induction evs as [|ev evs IH]; intros w Hall Hc; cbn [run].
  - intros [= <-]. auto.
  - cbn [forallb] in Hall. apply andb_prop in Hall as [Hev Hall].
    destruct (step isLinux ev w) as [w1|] eqn:E; [|discriminate].
    cbn [mbind option_bind]. intros Hrun.
    destruct (step_in_flight _ _ _ _ Hev Hc E) as (Hc1 & Hr1 & Hn1).
    destruct (IH _ Hall Hc1 Hrun) as (Hc2 & Hr2 & Hn2).
    repeat split; congruence.
Qed.

End CheckFacts.

(** C5, as stated, fails on the failure path: a report is stored, a second
    run is started and rejected, and the stored result is then [null], not
    the earlier report. *)
Lemma failed_check_loses_previous_report :
  App.checkResult (Run.app world_reported) = Some report_pass_fail_pass
  /\ App.checkResult ∘ Run.app
       <$> Run.run true
             [Run.ClickRunCheck; Run.CheckSettled (Rejected "timed out")]
             world_reported
     = Some None.
Proof. split; vm_compute; reflexivity. Qed.

(** C5 (amended). A click on the enabled check button starts a run: the
    stored result is cleared and [isChecking] is set. Until the call
    settles, whatever else happens, the flag stays set and the result stays
    [null], so this is the only check awaited, the button is disabled (a
    click on it does nothing), and neither the card with the counts nor the
    report is shown. When the call resolves the report is stored and the
    flag cleared. When it is rejected the flag is cleared, the error is
    shown in an alert, and the stored result is [null]: the report of an
    earlier run is not brought back. *)
Theorem system_check_lifecycle
    (isLinux : bool) (evs : list Run.Event) (w0 w1 w2 : Run.World) :
  Run.reachable isLinux w0 ->
  Run.step isLinux Run.ClickRunCheck w0 = Some w1 ->
  forallb in_flight evs = true ->
  Run.run isLinux evs w1 = Some w2 ->
  (App.isChecking (Run.app w2) = true
   /\ App.checkResult (Run.app w2) = None
   /\ Run.checks w2 = 1)
  /\ (exists v, App.render isLinux (Run.app w2) = Some v
                /\ App.disabled (App.v_checkBtn v) = true
                /\ App.v_statusCard v = None
                /\ App.v_reportModal v = None)
  /\ Run.step isLinux Run.ClickRunCheck w2 = None
  /\ (forall report, exists w3,
        Run.step isLinux (Run.CheckSettled (Resolved report)) w2 = Some w3
        /\ App.checkResult (Run.app w3) = Some report
        /\ App.isChecking (Run.app w3) = false
        /\ Run.log w3 = Run.log w2)
  /\ (forall e, exists w3,
        Run.step isLinux (Run.CheckSettled (Rejected e)) w2 = Some w3
        /\ App.checkResult (Run.app w3) = None
        /\ App.isChecking (Run.app w3) = false
        /\ Run.log w3 = Run.log w2 ++ [Alert ("Error: " +:+ e)]).
Proof.
  intros Hreach Hclick Hevs Hrun.
  assert (Hreach2 : Run.reachable isLinux w2).
  { eapply RunFacts.reachable_run; [|exact Hrun].
    eapply Run.reachable_step; eassumption. }
  pose proof (RunFacts.reachable_invariant _ _ Hreach) as [_ Hn0].
  apply RunFacts.step_ClickRunCheck in Hclick as (Hc0 & _ & Happ1 & _ & Hn1).
  rewrite Hc0 in Hn0.
  assert (Hc1 : App.isChecking (Run.app w1) = true) by now rewrite Happ1.
  destruct (CheckFacts.run_in_flight isLinux evs w1 w2 Hevs Hc1 Hrun)
    as (Hc2 & Hr2 & Hn2).
  rewrite Happ1 in Hr2. cbn in Hr2. rewrite Hn1, Hn0 in Hn2.
  destruct (RunFacts.invariant_renders isLinux w2
              (RunFacts.reachable_invariant _ _ Hreach2)) as [v Hv].
  destruct (RunFacts.render_in_range _ _ _ Hv) as [_ Hcur].
  pose proof (CheckFacts.render_eq isLinux _ _ Hcur) as Heq.
  rewrite Hc2, Hr2 in Heq.
  split; [auto|]. split; [|split; [|split]].
  - eexists. split; [exact Heq|]. cbn.
    split; [reflexivity|]. split; [reflexivity|].
    now destruct (App.isReportOpen (Run.app w2)).
  - unfold Run.step. rewrite Heq. reflexivity.
  - intros report. unfold Run.step. rewrite Heq, Hn2. cbn.
    eexists. split; [reflexivity|]. cbn. rewrite app_nil_r. auto.
  - intros e. unfold Run.step. rewrite Heq, Hn2. cbn.
    eexists. split; [reflexivity|]. cbn. auto.
Qed.

Lemma system_check_lifecycle_witness :
  App.checkResult (Run.app world_reported) = Some report_pass_fail_pass
  /\ App.isChecking (Run.app world_checking_later) = true
  /\ App.checkResult (Run.app world_checking_later) = None
  /\ Run.checks world_checking_later = 1.
Proof.
  split; [reflexivity|].
  refine (proj1 (system_check_lifecycle true
                   [Run.ClickTab 2; Run.Tick; Run.PollSettled (Rejected "ipc closed")]
                   world_reported world_checking world_checking_later
                   _ _ _ _)).
  - eapply (RunFacts.reachable_run true
              [Run.ClickRunCheck; Run.CheckSettled (Resolved report_pass_fail_pass)]).
    + exact world_fleet_up_reachable.
    + vm_compute. reflexivity.
  - vm_compute. reflexivity.
  - reflexivity.
  - vm_compute. reflexivity.
Defined.

Module CheckGate.

Import App Run RunFacts.

(** In a world that renders, the check button answers a click exactly
    when no check runs and the main computer reads online. *)
Lemma run_check_enabled (isLinux : bool) (w : World) :
  is_Some (render isLinux (app w)) ->
  is_Some (step isLinux ClickRunCheck w)
  <-> isChecking (app w) = false /\ online (app w) "192.168.50.101" = true.
Proof.
  intros [v Hv]. split.
  - intros [w' Hw']. apply step_ClickRunCheck in Hw'. tauto.
  - intros [Hc Hon]. unfold step. rewrite Hv. cbn [mbind option_bind].
    apply render_fields in Hv as (_ & _ & -> & _).
    rewrite Hc, Hon. cbn. eauto.
Qed.

Lemma tab_click_renders (isLinux : bool) (idx : nat) (w w1 : World) :
  step isLinux (ClickTab idx) w = Some w1 ->
  is_Some (render isLinux (app w)) /\ is_Some (render isLinux (app w1)).
Proof.
  intros H. split.
  - unfold step in H. destruct (render isLinux (app w)); [eauto|discriminate].
  - apply step_ClickTab in H as [Hin ->]. apply tabs_in_range in Hin.
    destruct (lookup_lt_is_Some_2 COMPUTERS idx Hin) as [robot Hrobot].
    rewrite (CheckFacts.render_eq isLinux _ robot); [eauto|].
    unfold currentRobot. cbn. now rewrite index_of_nat.
Qed.

End CheckGate.

(** C9, as stated, fails: the setter stores an index past the end of
    [COMPUTERS] (and a negative one) as it is given, and the next render
    then reads [.ip] of [undefined]. *)
Lemma out_of_range_index_is_stored :
  (7 >= Z.of_nat (List.length COMPUTERS))%Z
  /\ App.activeTab (App.init true) = 0%Z
  /\ App.activeTab (App.setActiveTab 7 (App.init true)) = 7%Z
  /\ App.activeTab (App.setActiveTab (-1) (App.init true)) = (-1)%Z
  /\ App.render true (App.setActiveTab 7 (App.init true)) = None.
Proof. repeat split. vm_compute. discriminate. Qed.

(** C9 (amended). [setActiveTab] stores the index it is given, with no
    check against the bounds. The only requests come from the tab buttons,
    each with its own position in [COMPUTERS], so in every world the
    component can reach the active index is inside [COMPUTERS], the current
    computer is defined, and a click on a tab stores an index in range. *)
Theorem active_index_in_range (isLinux : bool) (w : Run.World) :
  Run.reachable isLinux w ->
  (0 <= App.activeTab (Run.app w) < Z.of_nat (List.length COMPUTERS))%Z
  /\ is_Some (App.currentRobot (Run.app w))
  /\ (forall idx w',
        Run.step isLinux (Run.ClickTab idx) w = Some w' ->
        idx < List.length COMPUTERS
        /\ App.activeTab (Run.app w') = Z.of_nat idx)
  /\ (forall i, App.activeTab (App.setActiveTab i (Run.app w)) = i).
Proof.
  intros Hreach.
  pose proof (RunFacts.reachable_invariant _ _ Hreach) as Hinv.
  destruct (RunFacts.invariant_renders isLinux w Hinv) as [v Hv].
  destruct (RunFacts.render_in_range _ _ _ Hv) as [Hrange Hcur].
  split; [exact Hrange|]. split; [rewrite Hcur; eauto|]. split.
  - intros idx w' Hstep. apply RunFacts.step_ClickTab in Hstep as [Hin ->].
    split; [eapply RunFacts.tabs_in_range; exact Hin | reflexivity].
  - reflexivity.
Qed.

Lemma active_index_in_range_witness :
  (0 <= App.activeTab (Run.app world_switched) < 4)%Z
  /\ is_Some (App.currentRobot (Run.app world_switched)).
Proof.
  destruct (active_index_in_range true world_switched) as (H1 & H2 & _).
  - eapply (RunFacts.reachable_run true
              (Run.ClickTab 1 :: Run.ClickShutdown :: while_open)).
    + exact world_fleet_up_reachable.
    + vm_compute. reflexivity.
  - split; assumption.
Defined.

(** C10. In every world that renders: the check button answers a click
    exactly when no check runs and the status map reads the main computer
    (["192.168.50.101"], the entry of [COMPUTERS] named ["kyubic_main"])
    online; a click that is answered calls [run_system_check] with the
    hostname ["kyubic_main"]; and after a click on any tab the button
    answers exactly as it did before, with the same call. *)
Theorem system_check_addresses_main (isLinux : bool) (w : Run.World) :
  is_Some (App.render isLinux (Run.app w)) ->
  App.mainRobot = Some (mkComputer "kyubic_main" "Main PC" "192.168.50.101" true)
  /\ (is_Some (Run.step isLinux Run.ClickRunCheck w)
      <-> App.isChecking (Run.app w) = false
          /\ App.online (Run.app w) "192.168.50.101" = true)
  /\ (forall w',
        Run.step isLinux Run.ClickRunCheck w = Some w' ->
        Run.log w' = Run.log w ++ [Invoke_run_system_check "kyubic_main"])
  /\ (forall idx w1,
        Run.step isLinux (Run.ClickTab idx) w = Some w1 ->
        (is_Some (Run.step isLinux Run.ClickRunCheck w1)
         <-> is_Some (Run.step isLinux Run.ClickRunCheck w))
        /\ (forall w2,
              Run.step isLinux Run.ClickRunCheck w1 = Some w2 ->
              Run.log w2 = Run.log w ++ [Invoke_run_system_check "kyubic_main"])).
Proof.
  intros Hr.
  pose proof (CheckGate.run_check_enabled isLinux w Hr) as He.
  split; [reflexivity|]. split; [exact He|]. split.
  - intros w' Hcheck.
    now apply RunFacts.step_ClickRunCheck in Hcheck as (_ & _ & _ & -> & _).
  - intros idx w1 Htab.
    destruct (CheckGate.tab_click_renders _ _ _ _ Htab) as [_ Hr1].
    pose proof (CheckGate.run_check_enabled isLinux w1 Hr1) as He1.
    apply RunFacts.step_ClickTab in Htab as [_ ->]. split.
    + rewrite He1, He. reflexivity.
    + intros w2 Hcheck.
      apply RunFacts.step_ClickRunCheck in Hcheck as (_ & _ & _ & -> & _).
      cbn. now rewrite app_nil_r.
Qed.

Lemma system_check_addresses_main_witness :
  is_Some (Run.step true Run.ClickRunCheck world_switched)
  <-> App.isChecking (Run.app world_switched) = false
      /\ App.online (Run.app world_switched) "192.168.50.101" = true.
Proof.
  refine (proj1 (proj2 (system_check_addresses_main true world_switched _))).
  vm_compute. eauto.
Defined.

(** * Further properties of the code *)

(** ** useDeviceMonitor *)

Module MonitorMore.

Import Monitor MonitorFacts.

Lemma tick_rejected (e : string) (m : State) : tick (Rejected e) m = m.
Proof. reflexivity. Qed.

Lemma ticks_snoc (rs : list (Settled JsObj)) (r : Settled JsObj) (m : State) :
  ticks (rs ++ [r]) m = tick r (ticks rs m).
Proof. unfold ticks. now rewrite fold_left_app. Qed.

Lemma last_resolved_snoc (rs : list (Settled JsObj)) (r : Settled JsObj) :
  last_resolved (rs ++ [r])
  = match r with
    | Resolved result => Some result
    | Rejected _ => last_resolved rs
    end.
Proof. unfold last_resolved. now rewrite fold_left_app. Qed.

Lemma get_nextStatus (result : JsObj) (k : string) :
  JsObject.get k (nextStatus result)
  = if String.eqb k LOOPBACK then Some true else JsObject.get k result.
Proof.
  unfold nextStatus. destruct (String.eqb_spec k LOOPBACK) as [->|Hne].
  - apply get_set_same.
  - apply get_set_other. congruence.
Qed.

End MonitorMore.

(** X1. With the stored reference pointing into the heap, a poll that
    resolves keeps the reference exactly when the stored map and the new one
    have the same properties with the same values in the same order;
    otherwise the state refers to the object just created. *)
Theorem poll_keeps_reference_iff (result : JsObj) (m : Monitor.State) :
  Monitor.deviceStatus m < List.length (Monitor.heap m) ->
  (Monitor.deviceStatus (Monitor.tick (Resolved result) m) = Monitor.deviceStatus m
   <-> Monitor.statuses m = Monitor.nextStatus result)
  /\ (Monitor.statuses m <> Monitor.nextStatus result ->
      Monitor.deviceStatus (Monitor.tick (Resolved result) m)
      = List.length (Monitor.heap m)).
Proof.
  intros Hvalid. split; [split|].
  - intros Hkeep.
    destruct (decide (Monitor.statuses m = Monitor.nextStatus result)) as [E|E];
      [exact E|].
    rewrite (MonitorFacts.tick_resolved_replaces _ _ Hvalid E) in Hkeep. lia.
  - apply MonitorFacts.tick_resolved_keeps.
  - apply MonitorFacts.tick_resolved_replaces, Hvalid.
Qed.

Lemma poll_keeps_reference_iff_witness :
  Monitor.deviceStatus (Monitor.tick (Resolved result_5_10) Monitor.init) = 1.
Proof.
  refine (proj2 (poll_keeps_reference_iff result_5_10 Monitor.init _) _).
  - vm_compute. lia.
  - vm_compute. intros H. discriminate H.
Defined.

(** X2. A poll that resolves replaces the whole map: afterwards every key
    other than ["127.0.0.1"] reads exactly as in the result of the query, so
    a device the result leaves out reads [undefined] whatever the map held
    before. *)
Theorem resolved_poll_replaces_whole_map
    (result : JsObj) (m : Monitor.State) (k : string) :
  JsObject.get k (Monitor.statuses (Monitor.tick (Resolved result) m))
  = if String.eqb k LOOPBACK then Some true else JsObject.get k result.
Proof.
  rewrite MonitorFacts.tick_resolved_statuses. apply MonitorMore.get_nextStatus.
Qed.

(** X3. After any series of ticks the stored map reads as the map built
    from the last query that resolved, and as it did at the start when none
    resolved. *)
Theorem status_after_ticks (rs : list (Settled JsObj)) (m : Monitor.State) :
  Monitor.statuses (ticks rs m)
  = match last_resolved rs with
    | Some result => Monitor.nextStatus result
    | None => Monitor.statuses m
    end.
Proof.
  induction rs as [|r rs IH] using rev_ind; [reflexivity|].
  rewrite MonitorMore.ticks_snoc, MonitorMore.last_resolved_snoc.
  destruct r as [result|e].
  - apply MonitorFacts.tick_resolved_statuses.
  - rewrite MonitorMore.tick_rejected. exact IH.
Qed.

(** ** The registry and the status grid *)

Module RegistryFacts.

Import Registry.

Lemma COMPUTERS_eq : COMPUTERS = computers_of MASTER_CONFIG.
Proof. reflexivity. Qed.

Lemma ALL_DEVICES_eq : ALL_DEVICES = devices_of MASTER_CONFIG.
Proof. reflexivity. Qed.

Lemma computer_from_item (config : list ConfigItem) (C : Computer) :
  C ∈ computers_of config ->
  exists item, item ∈ config /\ as_computer item = Some C.
Proof.
  unfold computers_of. rewrite list_elem_of_omap. intros (item & Hin & HC). eauto.
Qed.

Lemma as_computer_ip (item : ConfigItem) (C : Computer) :
  as_computer item = Some C -> ip C = item_ip item /\ displayName C = item_uiName item.
Proof. destruct item; [intros [= <-]; auto | discriminate]. Qed.

End RegistryFacts.

(** X4. Whatever the configuration table holds, every computer offered in a
    tab is also a monitored device under the same address and with its
    display name, and its address is ["127.0.0.1"] or one of the targets of
    the batched query. *)
Theorem computers_are_monitored (config : list ConfigItem) (C : Computer) :
  C ∈ Registry.computers_of config ->
  mkDevice (displayName C) (ip C) ∈ Registry.devices_of config
  /\ (ip C = LOOPBACK \/ ip C ∈ Monitor.targets (Registry.devices_of config)).
Proof.
  intros HC.
  apply RegistryFacts.computer_from_item in HC as (item & Hin & Hitem).
  apply RegistryFacts.as_computer_ip in Hitem as [-> ->].
  assert (Hdev : mkDevice (item_uiName item) (item_ip item)
                 ∈ Registry.devices_of config).
  { unfold Registry.devices_of. apply list_elem_of_In, in_map_iff.
    exists item. split; [reflexivity | now apply list_elem_of_In]. }
  split; [exact Hdev|].
  destruct (decide (item_ip item = LOOPBACK)) as [E|E]; [now left | right].
  apply MonitorFacts.targets_spec. split; [exact E|]. eauto.
Qed.

Lemma computers_are_monitored_witness :
  "192.168.9.110" = LOOPBACK
  \/ "192.168.9.110" ∈ Monitor.targets (Registry.devices_of MASTER_CONFIG).
Proof.
  refine (proj2 (computers_are_monitored MASTER_CONFIG
                   (mkComputer "kyubic_jetson" "Jetson" "192.168.9.110" false) _)).
  vm_compute. repeat constructor.
Defined.

(** X5. The status grid shows one chip per queried address, in the order of
    the query: the addresses of its chips are the targets of the batched
    query, so there is never a chip for ["127.0.0.1"]; and a chip is online
    exactly when the map holds [true] for its address, a missing entry
    showing as offline. *)
Theorem grid_shows_queried_devices (devices : list Device) (statuses : JsObj) :
  map (fun chip => dev_ip (Grid.chip_device chip))
      (Grid.NetworkStatusGrid devices statuses)
  = Monitor.targets devices
  /\ (forall chip,
        chip ∈ Grid.NetworkStatusGrid devices statuses ->
        Grid.chip_device chip ∈ devices
        /\ (Grid.chip_isOnline chip = true
            <-> JsObject.get (dev_ip (Grid.chip_device chip)) statuses
                = Some true)).
Proof.
  split.
  - unfold Grid.NetworkStatusGrid, Monitor.targets.
    induction devices as [|d devices IH]; [reflexivity|].
    rewrite filter_cons. cbn [omap list_omap].
    destruct (String.eqb_spec (dev_ip d) LOOPBACK) as [E|E].
    + rewrite decide_False by (intros H; apply H, E). exact IH.
    + rewrite decide_True by exact E. cbn. now rewrite <- IH.
  - intros chip Hchip. unfold Grid.NetworkStatusGrid in Hchip.
    apply list_elem_of_omap in Hchip as (d & Hd & Hc).
    destruct (String.eqb (dev_ip d) LOOPBACK); [discriminate|].
    injection Hc as <-. cbn. split; [exact Hd|].
    destruct (JsObject.get (dev_ip d) statuses) as [[]|]; cbn;
      split; congruence.
Qed.

(** ** What the component sends, and when *)

Module Sent.

Import App Run RunFacts.

Ltac in_small_list :=
  repeat match goal with
         | H : _ ∈ [] |- _ => apply elem_of_nil in H; contradiction
         | H : _ ∈ _ :: _ |- _ => apply elem_of_cons in H as [H|H]
         end.

(** What a step adds to the log, as far as shutdown calls go: only the
    click on Shutdown in the modal adds one, for the pending target. *)
Lemma step_shutdown_calls (isLinux : bool) (ev : Event) (w w' : World) :
  step isLinux ev w = Some w' ->
  exists eff,
    log w' = log w ++ eff
    /\ forall h, Invoke_exec_shutdown_command h ∈ eff ->
                 ev = ClickConfirm
                 /\ exists C, shutdownTarget (app w) = Some C /\ name C = h.
Proof.
  intros H.
  destruct ev; open_step H; eexists; (split; [reflexivity|]); intros h Hin;
    unfold Monitor.updateStatuses_call, handleLaunchSSH_call,
      handleLaunchSSH_settle, surfaced in Hin;
    try (in_small_list; discriminate).
  - unfold executeShutdown_call in Hin.
    destruct (shutdownTarget (app w)) as [C|] eqn:E; in_small_list.
    injection Hin as ->. eauto.
  - destruct r; in_small_list; discriminate.
Qed.

(** Where a pending target comes from: it was pending before, or the
    shutdown icon was just clicked on the current computer. *)
Lemma step_target (isLinux : bool) (ev : Event) (w w' : World) (C : Computer) :
  step isLinux ev w = Some w' ->
  shutdownTarget (app w') = Some C ->
  shutdownTarget (app w) = Some C
  \/ (ev = ClickShutdown /\ currentRobot (app w) = Some C
      /\ online (app w) (ip C) = true).
Proof.
  intros H HC.
  destruct ev; try (open_step H; cbn in HC; (discriminate HC || (left; exact HC))).
  apply step_ClickShutdown in H as (C' & Hcur & Hon & ->).
  cbn in HC. injection HC as <-. right. auto.
Qed.

Lemma currentRobot_in_registry (s : State) (C : Computer) :
  currentRobot s = Some C -> C ∈ COMPUTERS.
Proof.
  unfold currentRobot, index. destruct (_ <? _)%Z; [discriminate|].
  apply list_elem_of_lookup_2.
Qed.

Lemma reachable_gate_registry (isLinux : bool) (w : World) :
  reachable isLinux w ->
  (forall C, shutdownTarget (app w) = Some C -> C ∈ COMPUTERS)
  /\ (forall h, Invoke_exec_shutdown_command h ∈ log w -> names_computer h).
Proof.
  induction 1 as [|w ev w' _ [IHt IHl] Hstep].
  - split; [discriminate|]. intros h Hin. cbn in Hin.
    unfold Monitor.updateStatuses_call in Hin. in_small_list. discriminate.
  - split.
    + intros C HC. destruct (step_target _ _ _ _ _ Hstep HC) as [Hold|(_ & Hcur & _)].
      * now apply IHt.
      * eapply currentRobot_in_registry, Hcur.
    + intros h Hin.
      destruct (step_shutdown_calls _ _ _ _ Hstep) as (eff & Hlog & Heff).
      rewrite Hlog in Hin.
      apply elem_of_app in Hin as [Hin|Hin]; [now apply IHl|].
      destruct (Heff h Hin) as (_ & C & HC & <-).
      exists C. split; [now apply IHt | reflexivity].
Qed.

End Sent.

Module MonitorInApp.

Import App Run RunFacts.

(** Only the settling of a poll touches the monitor's state. *)
Lemma step_monitor (isLinux : bool) (ev : Event) (w w' : World) :
  step isLinux ev w = Some w' ->
  monitor (app w') = monitor (app w)
  \/ exists r, ev = PollSettled r
               /\ monitor (app w') = Monitor.tick r (monitor (app w)).
Proof.
  intros H. destruct ev; try (open_step H; left; reflexivity).
  right. exists r. split; [reflexivity|].
  unfold step in H. destruct (render _ _); [|discriminate H].
  cbn [mbind option_bind] in H. destruct (polls w); [discriminate H|].
  unfold Monitor.tick.
  destruct (Monitor.updateStatuses_settle r (monitor (app w))) as [m eff].
  injection H as <-. reflexivity.
Qed.

Lemma reachable_monitor (isLinux : bool) (w : World) :
  reachable isLinux w ->
  Monitor.deviceStatus (monitor (app w)) < List.length (Monitor.heap (monitor (app w)))
  /\ (Monitor.statuses (monitor (app w)) = []
      \/ JsObject.get LOOPBACK (Monitor.statuses (monitor (app w))) = Some true).
Proof.
  induction 1 as [|w ev w' _ [IHv IHs] Hstep].
  - split; [vm_compute; lia | now left].
  - destruct (step_monitor _ _ _ _ Hstep) as [->|(r & _ & ->)]; [auto|].
    split.
    + destruct r as [result|e]; [|exact IHv].
      unfold Monitor.tick. cbn. rewrite length_app. cbn.
      unfold Monitor.updater. destruct (String.eqb _ _); lia.
    + destruct r as [result|e]; [right | exact IHs].
      rewrite MonitorFacts.tick_resolved_statuses.
      apply MonitorFacts.get_set_same.
Qed.

End MonitorInApp.

(** X6. In every world the component can reach at most one system check is
    awaited, and one is awaited exactly while [isChecking] is set: the
    disabled button keeps a second run from starting. *)
Theorem at_most_one_check_in_flight (isLinux : bool) (w : Run.World) :
  Run.reachable isLinux w ->
  Run.checks w <= 1
  /\ (App.isChecking (Run.app w) = true <-> Run.checks w = 1)
  /\ (App.isChecking (Run.app w) = true ->
      Run.step isLinux Run.ClickRunCheck w = None).
Proof.
  intros Hreach.
  pose proof (RunFacts.reachable_invariant _ _ Hreach) as Hinv.
  destruct Hinv as [Htab Hchecks].
  destruct (App.isChecking (Run.app w)) eqn:Hc; rewrite Hchecks.
  - split; [lia|]. split; [tauto|]. intros _.
    destruct (Run.step isLinux Run.ClickRunCheck w) as [w'|] eqn:E; [|reflexivity].
    apply RunFacts.step_ClickRunCheck in E as [E _]. congruence.
  - split; [lia|]. split; [split; [discriminate | lia] | discriminate].
Qed.

Lemma at_most_one_check_in_flight_witness :
  Run.checks world_fleet_up <= 1.
Proof.
  exact (proj1 (at_most_one_check_in_flight true world_fleet_up
                  world_fleet_up_reachable)).
Defined.

(** X7. In every world the component can reach the stored reference points
    into the heap, and the map either is still the empty object of the
    first render or reads ["127.0.0.1"] online: the loopback computer is
    offline only until the first poll resolves. *)
Theorem loopback_online_once_polled (isLinux : bool) (w : Run.World) :
  Run.reachable isLinux w ->
  Monitor.deviceStatus (App.monitor (Run.app w))
  < List.length (Monitor.heap (App.monitor (Run.app w)))
  /\ (Monitor.statuses (App.monitor (Run.app w)) = []
      \/ App.online (Run.app w) LOOPBACK = true).
Proof.
  intros Hreach.
  destruct (MonitorInApp.reachable_monitor _ _ Hreach) as [Hv [He|Hl]].
  - auto.
  - split; [exact Hv|]. right. unfold App.online. now rewrite Hl.
Qed.

Lemma loopback_online_once_polled_witness :
  Monitor.statuses (App.monitor (Run.app world_fleet_up)) = []
  \/ App.online (Run.app world_fleet_up) LOOPBACK = true.
Proof.
  exact (proj2 (loopback_online_once_polled true world_fleet_up
                  world_fleet_up_reachable)).
Defined.

(** X8. In every world the component can reach, the pending target of the
    confirmation is one of [COMPUTERS], and every shutdown call sent so far
    carries the hostname of one of [COMPUTERS]. *)
Theorem shutdown_calls_name_computers (isLinux : bool) (w : Run.World) :
  Run.reachable isLinux w ->
  (forall C, App.shutdownTarget (Run.app w) = Some C -> C ∈ COMPUTERS)
  /\ (forall hostname,
        Invoke_exec_shutdown_command hostname ∈ Run.log w ->
        exists C, C ∈ COMPUTERS /\ name C = hostname).
Proof. apply Sent.reachable_gate_registry. Qed.

Lemma shutdown_calls_name_computers_witness :
  exists C, C ∈ COMPUTERS /\ name C = "kyubic_main".
Proof.
  refine (proj2 (shutdown_calls_name_computers true world_confirmed _)
            "kyubic_main" _).
  - eapply (RunFacts.reachable_run true
              (Run.ClickTab 1 :: Run.ClickShutdown
                 :: while_open ++ [Run.ClickConfirm])).
    + exact world_fleet_up_reachable.
    + vm_compute. reflexivity.
  - vm_compute. repeat constructor.
Defined.

(** X9. While the gate is idle no event makes the component send a
    shutdown call: what the step adds to the log holds no
    [exec_shutdown_command] call, and the number of shutdown calls awaited
    does not grow. *)
Theorem idle_gate_sends_no_shutdown
    (isLinux : bool) (ev : Run.Event) (w w' : Run.World) :
  App.shutdownTarget (Run.app w) = None ->
  Run.step isLinux ev w = Some w' ->
  exists eff,
    Run.log w' = Run.log w ++ eff
    /\ (forall hostname, Invoke_exec_shutdown_command hostname ∉ eff)
    /\ Run.shutdowns w' <= Run.shutdowns w.
Proof.
  intros Hidle Hstep.
  destruct (Sent.step_shutdown_calls _ _ _ _ Hstep) as (eff & Hlog & Heff).
  exists eff. split; [exact Hlog|]. split.
  - intros hostname Hin. destruct (Heff _ Hin) as (_ & C & HC & _). congruence.
  - clear Hlog Heff. destruct ev; RunFacts.open_step Hstep; cbn; try lia.
    apply RunFacts.render_fields in Hrender as (_ & _ & _ & _ & Hmodal & _).
    congruence.
Qed.

Lemma idle_gate_sends_no_shutdown_witness :
  exists eff,
    Run.log world_shutdown_done ++ Monitor.updateStatuses_call ALL_DEVICES
    = Run.log world_shutdown_done ++ eff
    /\ (Invoke_exec_shutdown_command "kyubic_main" ∉ eff).
Proof.
  destruct (idle_gate_sends_no_shutdown true Run.Tick world_shutdown_done
              (Run.mkWorld (Run.app world_shutdown_done) 1 0 0 0
                 (Run.log world_shutdown_done
                    ++ Monitor.updateStatuses_call ALL_DEVICES)))
    as (eff & Hlog & Hnone & _).
  - reflexivity.
  - vm_compute. reflexivity.
  - exists eff. split; [exact Hlog | apply Hnone].
Defined.

(** ** The terminal buttons *)

(** X10. A terminal can be launched only while the current computer reads
    online, and with ROS only when that computer allows it. The click
    changes nothing in the component's state and sends one
    [open_ssh_terminal] call with the current computer's hostname and
    address and the flag, the remote command being the ROS start command
    with the flag set and the empty string without it. When the call
    settles the state is still the same, and a rejection shows an alert. *)
Theorem terminal_launch
    (isLinux : bool) (useRos : bool) (w w' : Run.World) :
  Run.step isLinux (Run.ClickTerminal useRos) w = Some w' ->
  exists C,
    App.currentRobot (Run.app w) = Some C
    /\ App.online (Run.app w) (ip C) = true
    /\ (useRos = true -> allowRos C = true)
    /\ Run.app w' = Run.app w
    /\ Run.log w'
       = Run.log w
         ++ [Invoke_open_ssh_terminal (name C) (ip C) useRos
               (if useRos then "ros2_start -- bash -i -c byobu" else EmptyString)]
    /\ (forall r w2,
          Run.step isLinux (Run.SessionSettled r) w' = Some w2 ->
          Run.app w2 = Run.app w
          /\ Run.log w2
             = Run.log w'
               ++ match r with
                  | Resolved _ => []
                  | Rejected e => [Alert ("Error: " +:+ e)]
                  end).
Proof.
  intros H. unfold Run.step in H.
  destruct (App.render isLinux (Run.app w)) as [v|] eqn:Hv; [|discriminate H].
  cbn [mbind option_bind] in H.
  destruct (App.v_isOnline v && (negb useRos || allowRos (App.v_currentRobot v)))
    eqn:Hok; [|discriminate H].
  injection H as <-. apply andb_prop in Hok as [Hon Hros].
  destruct (RunFacts.render_in_range _ _ _ Hv) as [_ Hcur].
  pose proof (RunFacts.render_fields _ _ _ Hv) as (Hon' & _).
  exists (App.v_currentRobot v). cbn.
  split; [exact Hcur|]. split; [now rewrite <- Hon'|]. split.
  { intros ->. exact Hros. }
  split; [reflexivity|]. split; [reflexivity|].
  intros r w2 H2. unfold Run.step in H2. cbn in H2. rewrite Hv in H2.
  cbn in H2. injection H2 as <-. cbn. split; [reflexivity|].
  destruct r; reflexivity.
Qed.

Lemma terminal_launch_witness :
  exists C,
    App.currentRobot (Run.app world_main_tab) = Some C
    /\ App.online (Run.app world_main_tab) (ip C) = true
    /\ allowRos C = true.
Proof.
  destruct (terminal_launch true true world_main_tab
              (Run.mkWorld (Run.app world_main_tab) 0 0 1 0
                 (Run.log world_main_tab
                    ++ [Invoke_open_ssh_terminal "kyubic_main" "192.168.50.101"
                          true "ros2_start -- bash -i -c byobu"])))
    as (C & HC & Hon & Hros & _).
  - vm_compute. reflexivity.
  - exists C. auto.
Defined.

(** ** More on the confirmation *)

(** X11. The Shutdown button of the modal is not disabled while a call is
    awaited: with the gate armed, two clicks in a row send two shutdown
    calls for the pending target, and the gate is still armed. *)
Theorem second_confirm_sends_again
    (isLinux : bool) (C : Computer) (w : Run.World) :
  is_Some (App.render isLinux (Run.app w)) ->
  App.shutdownTarget (Run.app w) = Some C ->
  exists w',
    Run.run isLinux [Run.ClickConfirm; Run.ClickConfirm] w = Some w'
    /\ Run.app w' = Run.app w
    /\ Run.shutdowns w' = 2 + Run.shutdowns w
    /\ Run.log w'
       = Run.log w ++ [Invoke_exec_shutdown_command (name C);
                       Invoke_exec_shutdown_command (name C)].
Proof.
  intros [v Hv] HC. cbn [Run.run]. unfold Run.step.
  pose proof (RunFacts.render_fields _ _ _ Hv) as (_ & _ & _ & _ & Hmodal & _).
  rewrite Hv. cbn [mbind option_bind]. rewrite Hmodal, HC.
  unfold App.executeShutdown_call. rewrite HC. cbn.
  rewrite Hv. cbn. rewrite Hmodal, HC. cbn.
  eexists. split; [reflexivity|]. cbn. rewrite <- app_assoc. auto.
Qed.

Lemma second_confirm_sends_again_witness :
  exists w',
    Run.run true [Run.ClickConfirm; Run.ClickConfirm] world_armed_main = Some w'
    /\ Run.shutdowns w' = 2.
Proof.
  destruct (second_confirm_sends_again true
              (mkComputer "kyubic_main" "Main PC" "192.168.50.101" true)
              world_armed_main) as (w' & Hrun & _ & Hn & _).
  - vm_compute. eauto.
  - reflexivity.
  - exists w'. split; [exact Hrun | exact Hn].
Defined.

(** X12. When a shutdown call resolves the confirmation is closed
    whichever target is pending by then. With the call for [A] sent, the
    modal cancelled, another tab selected and the gate armed again on that
    tab's computer, the resolution of the call for [A] leaves the gate idle,
    and no call was sent for the second computer. *)
Theorem late_resolution_closes_newer_confirmation
    (isLinux : bool) (A : Computer) (b : nat) (u : unit) (w w' : Run.World) :
  App.shutdownTarget (Run.app w) = Some A ->
  Run.run isLinux
    [ Run.ClickConfirm; Run.ClickCancel; Run.ClickTab b; Run.ClickShutdown ] w
  = Some w' ->
  exists B w'',
    COMPUTERS !! b = Some B
    /\ App.shutdownTarget (Run.app w') = Some B
    /\ Run.step isLinux (Run.ShutdownSettled (Resolved u)) w' = Some w''
    /\ App.shutdownTarget (Run.app w'') = None
    /\ Run.log w'' = Run.log w ++ [Invoke_exec_shutdown_command (name A)].
Proof.
  intros HA Hrun. cbn [Run.run] in Hrun.
  destruct (Run.step isLinux Run.ClickConfirm w) as [w1|] eqn:E1; [|discriminate].
  cbn [mbind option_bind] in Hrun.
  destruct (Run.step isLinux Run.ClickCancel w1) as [w2|] eqn:E2; [|discriminate].
  cbn [mbind option_bind] in Hrun.
  destruct (Run.step isLinux (Run.ClickTab b) w2) as [w3|] eqn:E3; [|discriminate].
  cbn [mbind option_bind] in Hrun.
  destruct (Run.step isLinux Run.ClickShutdown w3) as [w4|] eqn:E4; [|discriminate].
  cbn [mbind option_bind] in Hrun. injection Hrun as <-.
  apply RunFacts.step_ClickConfirm in E1 as (A' & HA' & Happ1 & Hlog1 & Hn1).
  rewrite HA in HA'. injection HA' as <-.
  assert (Hn2 : Run.shutdowns w2 = Run.shutdowns w1
                /\ Run.log w2 = Run.log w1).
  { clear -E2. RunFacts.open_step E2. cbn. now rewrite app_nil_r. }
  destruct Hn2 as [Hn2 Hlog2].
  apply RunFacts.step_ClickTab in E3 as [_ ->].
  apply RunFacts.step_ClickShutdown in E4 as (B & Hcur & _ & ->).
  unfold App.currentRobot in Hcur. cbn in Hcur.
  rewrite RunFacts.index_of_nat in Hcur.
  exists B. unfold Run.step. cbn.
  rewrite (CheckFacts.render_eq isLinux _ B)
    by (unfold App.currentRobot; cbn; now rewrite RunFacts.index_of_nat).
  cbn. rewrite Hn2, Hn1. eexists. split; [exact Hcur|]. split; [reflexivity|].
  split; [reflexivity|]. cbn. split; [reflexivity|].
  now rewrite !app_nil_r, Hlog2, Hlog1.
Qed.

Lemma late_resolution_closes_newer_confirmation_witness :
  exists B w'',
    COMPUTERS !! 2 = Some B
    /\ App.shutdownTarget (Run.app w'') = None
    /\ Run.log w''
       = Run.log world_armed_main ++ [Invoke_exec_shutdown_command "kyubic_main"].
Proof.
  destruct (Run.run true
              [ Run.ClickConfirm; Run.ClickCancel; Run.ClickTab 2;
                Run.ClickShutdown ] world_armed_main) as [w'|] eqn:E;
    [|vm_compute in E; discriminate E].
  destruct (late_resolution_closes_newer_confirmation true
              (mkComputer "kyubic_main" "Main PC" "192.168.50.101" true)
              2 tt world_armed_main w' eq_refl E)
    as (B & w'' & HB & _ & _ & Hidle & Hlog).
  exists B, w''. auto.
Defined.

(** ** The tabs *)

(** X13. A click on a tab makes that tab's computer the current one, and
    the computer at ["127.0.0.1"] can be selected this way only on Linux:
    elsewhere its tab is not shown. *)
Theorem tab_click_selects_shown_computer
    (isLinux : bool) (idx : nat) (w w' : Run.World) :
  Run.step isLinux (Run.ClickTab idx) w = Some w' ->
  exists C,
    COMPUTERS !! idx = Some C
    /\ App.currentRobot (Run.app w') = Some C
    /\ (ip C = LOOPBACK -> isLinux = true)
    /\ App.shutdownTarget (Run.app w') = App.shutdownTarget (Run.app w)
    /\ Run.log w' = Run.log w.
Proof.
  intros H. apply RunFacts.step_ClickTab in H as [Hin ->].
  pose proof (RunFacts.tabs_in_range _ _ Hin) as Hlt.
  destruct (lookup_lt_is_Some_2 COMPUTERS idx Hlt) as [C HC].
  exists C. split; [exact HC|]. split.
  { unfold App.currentRobot. cbn. now rewrite RunFacts.index_of_nat. }
  split; [|split; [reflexivity | apply app_nil_r]].
  intros Hip. destruct isLinux; [reflexivity|]. exfalso.
  vm_compute in Hin.
  repeat (apply elem_of_cons in Hin as [->|Hin];
          [vm_compute in HC; injection HC as <-; discriminate Hip|]).
  now apply elem_of_nil in Hin.
Qed.

Lemma tab_click_selects_shown_computer_witness :
  exists C, COMPUTERS !! 2 = Some C /\ name C = "kyubic_jetson".
Proof.
  destruct (tab_click_selects_shown_computer true 2 world_fleet_up
              (Run.update (App.setActiveTab 2 (Run.app world_fleet_up)) []
                 world_fleet_up))
    as (C & HC & _).
  - vm_compute. reflexivity.
  - exists C. split; [exact HC|].
    vm_compute in HC. injection HC as <-. reflexivity.
Defined.

(** ** The report *)

(** X14. The card with the counts can be clicked only when a result is
    stored and no check runs. The click opens the report on that result;
    closing it hides the report and keeps the result, so the card is there
    to open it again. *)
Theorem report_opens_and_closes (isLinux : bool) (w w1 : Run.World) :
  Run.step isLinux Run.ClickStatusCard w = Some w1 ->
  exists result,
    App.checkResult (Run.app w) = Some result
    /\ App.isChecking (Run.app w) = false
    /\ (v ← App.render isLinux (Run.app w1); App.v_reportModal v) = Some result
    /\ exists w2,
         Run.step isLinux Run.ClickCloseReport w1 = Some w2
         /\ App.checkResult (Run.app w2) = Some result
         /\ (v ← App.render isLinux (Run.app w2); App.v_reportModal v) = None
         /\ is_Some (Run.step isLinux Run.ClickStatusCard w2).
Proof.
  intros H. unfold Run.step in H.
  destruct (App.render isLinux (Run.app w)) as [v|] eqn:Hv; [|discriminate H].
  cbn [mbind option_bind] in H.
  destruct (RunFacts.render_in_range _ _ _ Hv) as [_ Hcur].
  remember (App.v_currentRobot v) as robot eqn:Hrobot. clear Hrobot.
  pose proof (CheckFacts.render_eq isLinux _ _ Hcur) as Heq.
  rewrite Heq in Hv. injection Hv as Hv. subst v. cbn in H.
  destruct (App.checkResult (Run.app w)) as [result|] eqn:Hres; [|discriminate H].
  destruct (App.isChecking (Run.app w)) eqn:Hc; [discriminate H|].
  injection H as <-. exists result. split; [reflexivity|]. split; [reflexivity|].
  assert (Hr1 : forall b,
             App.render isLinux (App.setIsReportOpen b (Run.app w))
             = Some (App.mkView robot
                       (App.online (Run.app w) (ip robot))
                       (App.online (Run.app w) "192.168.50.101")
                       (App.checkBtnProps false (App.online (Run.app w) "192.168.50.101"))
                       (App.tabs isLinux)
                       (Some (App.failCount (Run.app w), App.passCount (Run.app w)))
                       (App.shutdownTarget (Run.app w))
                       (if b then Some result else None))).
  { intros b. rewrite (CheckFacts.render_eq isLinux _ robot) by exact Hcur.
    cbn. rewrite Hres, Hc. unfold App.online, App.failCount, App.passCount.
    cbn. rewrite Hres. reflexivity. }
  cbn. rewrite (Hr1 true). cbn. split; [reflexivity|].
  unfold Run.step. cbn. rewrite (Hr1 true). cbn.
  eexists. split; [reflexivity|]. cbn. rewrite Hres. split; [reflexivity|].
  change (App.setIsReportOpen false (App.setIsReportOpen true (Run.app w)))
    with (App.setIsReportOpen false (Run.app w)).
  rewrite (Hr1 false). cbn. split; [reflexivity|]. eauto.
Qed.

Lemma report_opens_and_closes_witness :
  exists result, App.checkResult (Run.app world_reported) = Some result.
Proof.
  destruct (report_opens_and_closes true world_reported
              (Run.update (App.setIsReportOpen true (Run.app world_reported)) []
                 world_reported))
    as (result & Hres & _).
  - vm_compute. reflexivity.
  - exists result. exact Hres.
Defined.

(** ** The cards of the report *)

(** X15. A card starts closed. After [n] clicks on its header it is open
    exactly when the item has details and [n] is odd; an item without
    details, or with an empty text for details, never opens, and the text a
    card shows is never empty. *)
Theorem card_after_clicks (item : CheckItem) (n : nat) :
  Nat.iter n (Card.click_header item) false
  = Card.hasDetails item && Nat.odd n
  /\ (forall text,
        Card.shown_details item (Nat.iter n (Card.click_header item) false)
        = Some text ->
        text <> EmptyString /\ details item = Some text /\ Nat.odd n = true).
Proof.
  assert (Hiter : Nat.iter n (Card.click_header item) false
                  = Card.hasDetails item && Nat.odd n).
  { induction n as [|n IH]; [now rewrite andb_false_r|].
    cbn [Nat.iter nat_rect]. change (nat_rect _ _ _ n) with
      (Nat.iter n (Card.click_header item) false).
    rewrite IH, Nat.odd_succ, <- Nat.negb_odd. unfold Card.click_header.
    destruct (Card.hasDetails item), (Nat.odd n); reflexivity. }
  split; [exact Hiter|]. intros text. rewrite Hiter.
  unfold Card.shown_details, Card.hasDetails.
  destruct (details item) as [d|]; [|now destruct (Nat.odd n)].
  destruct (String.eqb_spec d EmptyString) as [->|Hd]; cbn.
  - discriminate.
  - destruct (Nat.odd n); cbn; [|discriminate]. intros [= <-]. auto.
Qed.

(** X16. The report shows a card for an item exactly when the item is a
    FAIL, or is a PASS and the passed items are unfolded. An item of the
    summary with any other status (the comparison is exact, case included)
    gets no card under either toggle and is in neither count: the two
    counts and the number of such items add up to the length of the
    summary. *)
Theorem cards_follow_status
    (result : DiagnosticResult) (showPassItems : bool) (item : CheckItem) :
  (item ∈ Card.visible_items (Some result) showPassItems
   <-> item ∈ summary result
       /\ (status item = "FAIL"
           \/ (showPassItems = true /\ status item = "PASS")))
  /\ List.length (App.fails (Some result))
     + List.length (App.passes (Some result))
     + List.length (filter (fun i => status i <> "PASS" /\ status i <> "FAIL")
                           (summary result))
     = List.length (summary result).
Proof.
  split.
  - unfold Card.visible_items, App.fails, App.passes.
    rewrite elem_of_app, list_elem_of_filter.
    destruct showPassItems.
    + rewrite list_elem_of_filter. intuition congruence.
    + rewrite elem_of_nil. intuition congruence.
  - unfold App.fails, App.passes.
    induction (summary result) as [|i l IH]; [reflexivity|].
    rewrite !filter_cons.
    destruct (decide (status i = "FAIL")) as [HF|HF];
      destruct (decide (status i = "PASS")) as [HP|HP];
      destruct (decide (status i <> "PASS" /\ status i <> "FAIL")) as [HO|HO];
      cbn [List.length]; try lia; try tauto.
    rewrite HF in HP. discriminate HP.
Qed.

(** ** The first version of the monitor *)

Module LegacyFacts.

Import Legacy.

Lemma get_device_updater_same (device : Device) (r : Settled bool)
    (prev : JsObj) :
  JsObject.get (dev_ip device) (device_updater device r prev)
  = Some (device_written device r).
Proof.
  unfold device_updater, device_written.
  destruct (String.eqb (dev_ip device) LOOPBACK).
  - apply MonitorFacts.get_set_same.
  - destruct r; apply MonitorFacts.get_set_same.
Qed.

Lemma get_device_updater_other (device : Device) (k : string)
    (r : Settled bool) (prev : JsObj) :
  dev_ip device <> k ->
  JsObject.get k (device_updater device r prev) = JsObject.get k prev.
Proof.
  intros H. unfold device_updater.
  destruct (String.eqb (dev_ip device) LOOPBACK).
  - now apply MonitorFacts.get_set_other.
  - destruct r; now apply MonitorFacts.get_set_other.
Qed.

Lemma settle_all_untouched (us : list (Device * Settled bool)) (k : string)
    (prev : JsObj) :
  Forall (fun u => dev_ip (fst u) <> k) us ->
  JsObject.get k (settle_all us prev) = JsObject.get k prev.
Proof.
  intros H. revert prev. induction H as [|u us Hu _ IH]; intros prev.
  - reflexivity.
  - cbn [settle_all fold_left]. fold (settle_all us (device_updater u.1 u.2 prev)).
    rewrite IH. now apply get_device_updater_other.
Qed.

End LegacyFacts.

(** X17. In the first version every pass writes [true] for the device at
    ["127.0.0.1"] without probing it, and each other device is probed on
    its own, its settled probe writing its own entry ([false] when the probe
    was rejected). After any series of these updaters a device reads what
    its last updater wrote, whatever the updaters of the other devices did
    in between; and a key no updater was for reads as before. *)
Theorem legacy_last_update_wins
    (before after : list (Device * Settled bool))
    (device : Device) (r : Settled bool) (prev : JsObj) :
  Forall (fun u => dev_ip (fst u) <> dev_ip device) after ->
  JsObject.get (dev_ip device)
    (Legacy.settle_all (before ++ (device, r) :: after) prev)
  = Some (if String.eqb (dev_ip device) LOOPBACK then true
          else match r with
               | Resolved isOnline => isOnline
               | Rejected _ => false
               end)
  /\ (forall k,
        Forall (fun u => dev_ip (fst u) <> k) (before ++ (device, r) :: after) ->
        JsObject.get k (Legacy.settle_all (before ++ (device, r) :: after) prev)
        = JsObject.get k prev).
Proof.
  intros Hafter. split.
  - unfold Legacy.settle_all. rewrite fold_left_app. cbn [fold_left fst snd].
    fold (Legacy.settle_all before prev).
    fold (Legacy.settle_all after
            (Legacy.device_updater device r (Legacy.settle_all before prev))).
    rewrite (LegacyFacts.settle_all_untouched _ _ _ Hafter).
    apply LegacyFacts.get_device_updater_same.
  - intros k Hk. now apply LegacyFacts.settle_all_untouched.
Qed.

Lemma legacy_last_update_wins_witness :
  JsObject.get "192.168.9.5"
    (Legacy.settle_all
       ([(mkDevice "localhost" "127.0.0.1", Rejected "not probed");
         (mkDevice "Sensor (ESP32)" "192.168.9.5", Resolved true)]
          ++ (mkDevice "Sensor (ESP32)" "192.168.9.5", Rejected "timeout")
          :: [(mkDevice "DVL" "192.168.9.10", Resolved true)]) [])
  = Some false.
Proof.
  refine (proj1 (legacy_last_update_wins
                   [(mkDevice "localhost" "127.0.0.1", Rejected "not probed");
                    (mkDevice "Sensor (ESP32)" "192.168.9.5", Resolved true)]
                   [(mkDevice "DVL" "192.168.9.10", Resolved true)]
                   (mkDevice "Sensor (ESP32)" "192.168.9.5")
                   (Rejected "timeout") [] _)).
  repeat constructor. cbn. discriminate.
Defined.
